(** * Voice recorder: recorder workers, background service and scheduler

    A shallow embedding of [app/audio_utils.py] (class [AudioRecorder]),
    [services/recording_service.py] (class [RecordingService]) and
    [app/main.py] (class [VoiceRecorderApp]), with the parts of Python's
    [wave], [struct] and [datetime] modules and of the audio back ends
    that these classes call.

    Python statements become computations in a state monad with
    exceptions.  A worker runs in its own thread: what the rest of the
    process and the hardware do meanwhile (the clock, the blocks the
    input stream delivers, a [stop_recording] of the main thread) is
    given to the worker as an explicit environment, one record per turn
    of its loop. *)

From Stdlib Require Import ZArith QArith Qround Lqa Lia Bool List Ascii String.
From Stdlib.Strings Require Import Byte.
From Stdlib Require DecimalString.
From stdpp Require Import base option list sorting gmap strings.

Local Open Scope Z_scope.

(* ===================================================================== *)
(** * Python: exceptions and effects *)
(* ===================================================================== *)

Module Py.

(** The exception classes that occur; all derive from [Exception]. *)
Inductive exn : Type :=
| ValueError
| OSError
| StructError      (* struct.error *)
| RuntimeError
| BackendError.    (* what an audio library or the platform bridge raises *)

Global Instance exn_eq_dec : EqDecision exn.
Proof. solve_decision. Defined.

(** How a computation ends.  [Running] is a worker that is still inside
    its loop when the observed environment ends. *)
Inductive outcome (A : Type) : Type :=
| Returned (a : A)
| Raised (e : exn)
| Running.
Global Arguments Returned {A} a.
Global Arguments Raised {A} e.
Global Arguments Running {A}.

Definition M (S A : Type) : Type := S → outcome A * S.

Global Instance M_ret {S} : MRet (M S) := λ A a s, (Returned a, s).

Global Instance M_bind {S} : MBind (M S) := λ A B f m s,
  match m s with
  | (Returned a, s') => f a s'
  | (Raised e, s') => (Raised e, s')
  | (Running, s') => (Running, s')
  end.

Definition raise {S A} (e : exn) : M S A := λ s, (Raised e, s).
Definition running {S A} : M S A := λ s, (Running, s).
Definition gets {S A} (f : S → A) : M S A := λ s, (Returned (f s), s).
Definition modify {S} (f : S → S) : M S unit := λ s, (Returned tt, f s).

(** [try: body / except C: handler], where [handles e] says whether
    class [C] covers [e]. *)
Definition try_except {S A} (body : M S A) (handles : exn → bool)
    (handler : exn → M S A) : M S A := λ s,
  match body s with
  | (Raised e, s') => if handles e then handler e s' else (Raised e, s')
  | r => r
  end.

(** [try: body / finally: fin].  An exception of [fin] replaces the
    pending result of [body]. *)
Definition try_finally {S A} (body : M S A) (fin : M S unit) : M S A := λ s,
  match body s with
  | (Returned a, s') =>
      match fin s' with
      | (Returned _, s'') => (Returned a, s'')
      | (Raised e, s'') => (Raised e, s'')
      | (Running, s'') => (Running, s'')
      end
  | (Raised e, s') =>
      match fin s' with
      | (Returned _, s'') => (Raised e, s'')
      | (Raised e', s'') => (Raised e', s'')
      | (Running, s'') => (Running, s'')
      end
  | (Running, s') => (Running, s')
  end.

(** [except Exception]. *)
Definition Exception (e : exn) : bool := true.

(** [except ValueError]. *)
Definition is_ValueError (e : exn) : bool := bool_decide (e = ValueError).

(** An operation that the environment lets succeed or fail. *)
Definition may_raise {S} (r : option exn) : M S unit :=
  match r with
  | Some e => raise e
  | None => mret tt
  end.

End Py.
Import Py.

(* ===================================================================== *)
(** * Bytes, [struct.pack] and the [wave] writer *)
(* ===================================================================== *)

Definition byte_of_Z (z : Z) : byte :=
  match Byte.of_N (Z.to_N (Z.land z 255)) with
  | Some b => b
  | None => x00
  end.

(** The two bytes of a 16-bit value, low byte first. *)
Definition le16 (z : Z) : list byte :=
  [byte_of_Z z; byte_of_Z (Z.shiftr z 8)].

(** [struct.pack('<h', v)]: a signed 16-bit integer, little endian. *)
Definition pack_h (v : Z) : exn + list byte :=
  if (-32768 <=? v) && (v <=? 32767) then inr (le16 v) else inl StructError.

(** The 44-byte RIFF/WAVE header, field by field. *)
Record wav_header : Type := {
  riff_size : Z;        (* bytes after the RIFF size field: 36 + data *)
  format_tag : Z;       (* 1 is WAVE_FORMAT_PCM *)
  h_nchannels : Z;
  h_framerate : Z;
  h_byterate : Z;
  h_blockalign : Z;
  h_bitspersample : Z;
  data_size : Z         (* bytes in the data chunk *)
}.

Global Instance wav_header_eq_dec : EqDecision wav_header.
Proof. solve_decision. Defined.

(** What is on disk under a path. *)
Inductive file : Type :=
| WavFile (hdr : option wav_header) (data : list byte)
    (* written through [wave] or [soundfile]; no header yet when [None] *)
| PlatformFile (data : list byte).
    (* written by the platform's own recorder, in its own encoding *)

Definition WAVE_FORMAT_PCM : Z := 1.

Module Wave.

(** A [wave.Wave_write] object, with the image of its file. *)
Record wave_write : Type := {
  ww_path : string;
  _nchannels : Z;
  _sampwidth : Z;
  _framerate : Z;
  _nframes : Z;
  _nframeswritten : Z;
  _datawritten : Z;
  _datalength : Z;
  _headerwritten : bool;
  ww_hdr : option wav_header;
  ww_data : list byte
}.

Definition on_disk (w : wave_write) : file := WavFile (ww_hdr w) (ww_data w).

(** [wave.open(path, 'wb')]: the file is created or truncated. *)
Definition open (path : string) : wave_write :=
  {| ww_path := path; _nchannels := 0; _sampwidth := 0; _framerate := 0;
     _nframes := 0; _nframeswritten := 0; _datawritten := 0;
     _datalength := 0; _headerwritten := false;
     ww_hdr := None; ww_data := [] |}.

Definition setnchannels (n : Z) (w : wave_write) : wave_write :=
  {| ww_path := ww_path w; _nchannels := n; _sampwidth := _sampwidth w;
     _framerate := _framerate w; _nframes := _nframes w;
     _nframeswritten := _nframeswritten w; _datawritten := _datawritten w;
     _datalength := _datalength w; _headerwritten := _headerwritten w;
     ww_hdr := ww_hdr w; ww_data := ww_data w |}.

Definition setsampwidth (n : Z) (w : wave_write) : wave_write :=
  {| ww_path := ww_path w; _nchannels := _nchannels w; _sampwidth := n;
     _framerate := _framerate w; _nframes := _nframes w;
     _nframeswritten := _nframeswritten w; _datawritten := _datawritten w;
     _datalength := _datalength w; _headerwritten := _headerwritten w;
     ww_hdr := ww_hdr w; ww_data := ww_data w |}.

Definition setframerate (n : Z) (w : wave_write) : wave_write :=
  {| ww_path := ww_path w; _nchannels := _nchannels w;
     _sampwidth := _sampwidth w; _framerate := n; _nframes := _nframes w;
     _nframeswritten := _nframeswritten w; _datawritten := _datawritten w;
     _datalength := _datalength w; _headerwritten := _headerwritten w;
     ww_hdr := ww_hdr w; ww_data := ww_data w |}.

(** [_write_header(initlength)]. *)
Definition _write_header (initlength : Z) (w : wave_write) : wave_write :=
  let nframes :=
    if _nframes w =? 0 then initlength / (_nchannels w * _sampwidth w)
    else _nframes w in
  let datalength := nframes * _nchannels w * _sampwidth w in
  {| ww_path := ww_path w; _nchannels := _nchannels w;
     _sampwidth := _sampwidth w; _framerate := _framerate w;
     _nframes := nframes;
     _nframeswritten := _nframeswritten w; _datawritten := _datawritten w;
     _datalength := datalength; _headerwritten := true;
     ww_hdr := Some {| riff_size := 36 + datalength;
                       format_tag := WAVE_FORMAT_PCM;
                       h_nchannels := _nchannels w;
                       h_framerate := _framerate w;
                       h_byterate := _nchannels w * _framerate w * _sampwidth w;
                       h_blockalign := _nchannels w * _sampwidth w;
                       h_bitspersample := _sampwidth w * 8;
                       data_size := datalength |};
     ww_data := ww_data w |}.

(** [_ensure_header_written(datasize)].  The three parameters are set to
    non-zero values by every caller before the first write, so the
    "not specified" errors of the library cannot occur and are left out. *)
Definition _ensure_header_written (datasize : Z) (w : wave_write) : wave_write :=
  if _headerwritten w then w else _write_header datasize w.

(** [_patchheader()]: the two length fields are rewritten in place. *)
Definition _patchheader (w : wave_write) : wave_write :=
  if _datawritten w =? _datalength w then w
  else
    {| ww_path := ww_path w; _nchannels := _nchannels w;
       _sampwidth := _sampwidth w; _framerate := _framerate w;
       _nframes := _nframes w;
       _nframeswritten := _nframeswritten w; _datawritten := _datawritten w;
       _datalength := _datawritten w; _headerwritten := _headerwritten w;
       ww_hdr := match ww_hdr w with
                 | Some h =>
                     Some {| riff_size := 36 + _datawritten w;
                             format_tag := format_tag h;
                             h_nchannels := h_nchannels h;
                             h_framerate := h_framerate h;
                             h_byterate := h_byterate h;
                             h_blockalign := h_blockalign h;
                             h_bitspersample := h_bitspersample h;
                             data_size := _datawritten w |}
                 | None => None
                 end;
       ww_data := ww_data w |}.

Definition writeframesraw (data : list byte) (w : wave_write) : wave_write :=
  let w := _ensure_header_written (Z.of_nat (length data)) w in
  let nframes := Z.of_nat (length data) / (_sampwidth w * _nchannels w) in
  {| ww_path := ww_path w; _nchannels := _nchannels w;
     _sampwidth := _sampwidth w; _framerate := _framerate w;
     _nframes := _nframes w;
     _nframeswritten := _nframeswritten w + nframes;
     _datawritten := _datawritten w + Z.of_nat (length data);
     _datalength := _datalength w; _headerwritten := _headerwritten w;
     ww_hdr := ww_hdr w; ww_data := ww_data w ++ data |}.

Definition writeframes (data : list byte) (w : wave_write) : wave_write :=
  let w := writeframesraw data w in
  if _datalength w =? _datawritten w then w else _patchheader w.

Definition close (w : wave_write) : wave_write :=
  let w := _ensure_header_written 0 w in
  if _datalength w =? _datawritten w then w else _patchheader w.

End Wave.

(* ===================================================================== *)
(** * [app/audio_utils.py]: class [AudioRecorder] *)
(* ===================================================================== *)

(** The value of a [duration_seconds] argument in a condition: [None]
    and zero are false. *)
Definition truthy (duration : option Q) : bool :=
  match duration with
  | Some d => negb (Qeq_bool d 0)
  | None => false
  end.

(** [int(x)] of a number: rounding towards zero. *)
Definition int_of_Q (q : Q) : Z := Z.quot (Qnum q) (Zpos (Qden q)).

(** [l[:n]] *)
Definition slice_to {A} (l : list A) (n : Z) : list A :=
  if 0 <=? n then take (Z.to_nat n) l
  else take (Z.to_nat (Z.of_nat (length l) + n)) l.

Definition upper (c : ascii) : ascii :=
  let n := nat_of_ascii c in
  if (Nat.leb 97 n && Nat.leb n 122)%bool then ascii_of_nat (n - 32) else c.

(** The extension of a path without its dot, in upper case, as
    [soundfile] looks it up: the text after the last dot of the last
    path component. *)
Fixpoint ext_rev (rev_path : list ascii) (acc : list ascii) : list ascii :=
  match rev_path with
  | [] => []
  | c :: rest =>
      if Ascii.eqb c "." then acc
      else if Ascii.eqb c "/" then []
      else ext_rev rest (upper c :: acc)
  end.

Definition extension (path : string) : string :=
  string_of_list_ascii (ext_rev (rev (list_ascii_of_string path)) []).

(** One turn of a worker's loop, seen from the worker: whether the main
    thread has run [self.is_recording = False] of [stop_recording] since
    the last test of the flag, what [time.time()] returns, and what
    [stream.read] does (the last is used by the loops that read). *)
Record turn : Type := {
  stop_called : bool;
  now : Q;
  read : exn + list byte
}.

Module AudioUtils.

(** The values of the module variable [audio_lib] other than [None]. *)
Inductive lib : Type := pyaudio | sounddevice | plyer.

(** An [AudioRecorder], the threads it has started, the files, the
    [plyer.audio] facade and the standard output. *)
Record world : Type := {
  is_recording : bool;
  recording_thread : option nat;            (* position in [threads] *)
  audio_data : list (list byte);
  threads : list (string * option Q);       (* started workers: their args *)
  fs : gmap string file;
  wf : option Wave.wave_write;              (* the worker's open [wf] *)
  plyer_file_path : string;                 (* [audio.file_path] of plyer *)
  stdout : list string
}.

Definition set_is_recording (b : bool) (w : world) : world :=
  {| is_recording := b; recording_thread := recording_thread w;
     audio_data := audio_data w; threads := threads w; fs := fs w;
     wf := wf w; plyer_file_path := plyer_file_path w; stdout := stdout w |}.

Definition set_audio_data (d : list (list byte)) (w : world) : world :=
  {| is_recording := is_recording w; recording_thread := recording_thread w;
     audio_data := d; threads := threads w; fs := fs w;
     wf := wf w; plyer_file_path := plyer_file_path w; stdout := stdout w |}.

(** [t = threading.Thread(target=self._record_worker, args=...)],
    [self.recording_thread = t], [t.start()]. *)
Definition start_thread (filepath : string) (duration : option Q) (w : world) : world :=
  {| is_recording := is_recording w;
     recording_thread := Some (length (threads w));
     audio_data := audio_data w;
     threads := threads w ++ [(filepath, duration)]; fs := fs w;
     wf := wf w; plyer_file_path := plyer_file_path w; stdout := stdout w |}.

Definition set_files (f : gmap string file) (o : option Wave.wave_write) (w : world) : world :=
  {| is_recording := is_recording w; recording_thread := recording_thread w;
     audio_data := audio_data w; threads := threads w; fs := f;
     wf := o; plyer_file_path := plyer_file_path w; stdout := stdout w |}.

Definition set_plyer_file_path (p : string) (w : world) : world :=
  {| is_recording := is_recording w; recording_thread := recording_thread w;
     audio_data := audio_data w; threads := threads w; fs := fs w;
     wf := wf w; plyer_file_path := p; stdout := stdout w |}.

Definition write_stdout (msg : string) (w : world) : world :=
  {| is_recording := is_recording w; recording_thread := recording_thread w;
     audio_data := audio_data w; threads := threads w; fs := fs w;
     wf := wf w; plyer_file_path := plyer_file_path w;
     stdout := stdout w ++ [msg] |}.

Definition print (msg : string) : M world unit := modify (write_stdout msg).

(** The settings of [__init__]. *)
Definition sample_rate : Z := 44100.
Definition channels : Z := 1.
Definition chunk_size : Z := 1024.
(** [self.audio.get_sample_size(pyaudio.paInt16)] *)
Definition sample_size : Z := 2.

(** ** What happens around a worker *)

Record env : Type := {
  open_input : option exn;    (* audio.open / sd.rec / audio.start raise *)
  open_output : option exn;   (* wave.open / sf.write cannot write the path *)
  start_time : Q;             (* time.time() before the loop *)
  turns : list turn;
  end_time : Q;               (* time.time() after the loop (sounddevice) *)
  close_input : option exn;   (* stop_stream / sd.stop / audio.stop raise *)
  captured : nat → Z;         (* sounddevice: the 16-bit samples of the buffer *)
  encoded : list byte         (* plyer: what the platform recorder wrote *)
}.

(** ** The wave file of a worker *)

(** [wf] becomes [o], and the file on disk what [o] has written. *)
Definition put_wf (o : Wave.wave_write) (w : world) : world :=
  set_files (<[Wave.ww_path o := Wave.on_disk o]> (fs w)) (Some o) w.

(** [with wave.open(filepath, 'wb') as wf:] enters here. *)
Definition wave_open (e : env) (filepath : string) : M world unit :=
  may_raise (open_output e);;
  modify (put_wf (Wave.open filepath)).

(** A method call on [wf]. *)
Definition wf_call (f : Wave.wave_write → Wave.wave_write) : M world unit :=
  modify (λ w, if wf w is Some o then put_wf (f o) w else w).

(** and leaves here, on every path. *)
Definition wave_close : M world unit :=
  wf_call Wave.close;; modify (λ w, set_files (fs w) None w).

Definition with_wave_open {A} (e : env) (filepath : string) (body : M world A) : M world A :=
  wave_open e filepath;; try_finally body wave_close.

(** The main thread's [stop_recording], if it came in before this turn. *)
Definition interleave (t : turn) : M world unit :=
  if stop_called t then modify (set_is_recording false) else mret tt.

(** [duration_seconds and (time.time() - start_time) >= duration_seconds] *)
Definition elapsed (duration : option Q) (start t : Q) : bool :=
  match duration with
  | Some d => truthy duration && Qle_bool d (t - start)
  | None => false
  end.

Section Recorder.

(** [audio_lib], fixed when the module is imported. *)
Variable audio_lib : option lib.

(** [int(32767 * math.sin(2 * math.pi * freq * i / rate))] in floating
    point, as a function of [freq], [i] and [rate]. *)
Variable tone : Z → Z → Z → Z.

Definition start_recording (filepath : string) (duration_seconds : option Q) : M world bool :=
  r ← gets is_recording;
  if r : bool then mret false
  else
    modify (set_is_recording true);;
    modify (set_audio_data []);;
    modify (start_thread filepath duration_seconds);;
    mret true.

(** [join(timeout=5.0)] waits and changes nothing. *)
Definition stop_recording : M world unit :=
  modify (set_is_recording false).

(** [while self.is_recording: ...] of [_record_with_pyaudio]. *)
Fixpoint pyaudio_loop (duration_seconds : option Q) (start : Q) (ts : list turn) : M world unit :=
  match ts with
  | [] => running
  | t :: ts' =>
      interleave t;;
      r ← gets is_recording;
      if negb r then mret tt
      else if elapsed duration_seconds start (now t) then mret tt
      else
        match read t with
        | inr data =>
            wf_call (Wave.writeframes data);;
            pyaudio_loop duration_seconds start ts'
        | inl _ => print "Error reading audio"
        end
  end.

Definition _record_with_pyaudio (e : env) (filepath : string)
    (duration_seconds : option Q) : M world unit :=
  try_finally
    (try_except
       (may_raise (open_input e);;
        with_wave_open e filepath
          (wf_call (Wave.setnchannels channels);;
           wf_call (Wave.setsampwidth sample_size);;
           wf_call (Wave.setframerate sample_rate);;
           pyaudio_loop duration_seconds (start_time e) (turns e));;
        may_raise (close_input e))
       Exception
       (λ _, print "PyAudio recording error"))
    (modify (set_is_recording false)).

(** The waiting loop of [_record_with_sounddevice] and of
    [_record_with_plyer]: [time.sleep(0.1)] in each turn. *)
Fixpoint wait_loop (duration_seconds : option Q) (start : Q) (ts : list turn) : M world unit :=
  match ts with
  | [] => running
  | t :: ts' =>
      interleave t;;
      r ← gets is_recording;
      if negb r then mret tt
      else if elapsed duration_seconds start (now t) then mret tt
      else wait_loop duration_seconds start ts'
  end.

(** [sf.write(filepath, data, samplerate)] for one-channel [int16] data.
    The container follows the extension; [WAV] has the 16-bit PCM
    subtype by default.  (An extension the library does not know is
    refused by it; that case is not told apart from another container
    here.) *)
Definition sf_write (e : env) (filepath : string) (samples : list Z) : M world unit :=
  may_raise (open_output e);;
  modify (λ w,
    let data := concat (map le16 samples) in
    let n := Z.of_nat (length data) in
    let f :=
      if String.eqb (extension filepath) "WAV" then
        WavFile (Some {| riff_size := 36 + n; format_tag := WAVE_FORMAT_PCM;
                         h_nchannels := 1; h_framerate := sample_rate;
                         h_byterate := sample_rate * 2; h_blockalign := 2;
                         h_bitspersample := 16; data_size := n |}) data
      else PlatformFile data in
    set_files (<[filepath := f]> (fs w)) (wf w) w).

Definition _record_with_sounddevice (e : env) (filepath : string)
    (duration_seconds : option Q) : M world unit :=
  try_finally
    (try_except
       (let frames :=
          match duration_seconds with
          | Some d => if truthy duration_seconds
                      then int_of_Q (d * inject_Z sample_rate)
                      else sample_rate * 300
          | None => sample_rate * 300
          end in
        may_raise (open_input e);;
        let recording := map (captured e) (seq 0 (Z.to_nat frames)) in
        wait_loop duration_seconds (start_time e) (turns e);;
        may_raise (close_input e);;
        sf_write e filepath
          (slice_to recording
             (int_of_Q ((end_time e - start_time e) * inject_Z sample_rate))))
       Exception
       (λ _, print "SoundDevice recording error"))
    (modify (set_is_recording false)).

(** [for i in range(frames): ...] of [_create_dummy_recording]. *)
Fixpoint tone_loop (indices : list nat) : M world unit :=
  match indices with
  | [] => mret tt
  | i :: rest =>
      match pack_h (tone 440 (Z.of_nat i) sample_rate) with
      | inr sample => wf_call (Wave.writeframes sample);; tone_loop rest
      | inl err => raise err
      end
  end.

Definition _create_dummy_recording (e : env) (filepath : string) : M world unit :=
  try_finally
    (try_except
       (with_wave_open e filepath
          (wf_call (Wave.setnchannels 1);;
           wf_call (Wave.setsampwidth 2);;
           wf_call (Wave.setframerate sample_rate);;
           let frames := int_of_Q (1 * inject_Z sample_rate) in
           tone_loop (seq 0 (Z.to_nat frames)));;
        print ("Created dummy recording: " +:+ filepath))
       Exception
       (λ _, print "Error creating dummy recording"))
    (modify (set_is_recording false)).

(** [audio.start()] and [audio.stop()] of the plyer facade record to the
    facade's [file_path] as it is when they are called. *)
Definition plyer_start (e : env) : M world unit :=
  may_raise (open_input e);;
  modify (λ w, set_files (<[plyer_file_path w := PlatformFile []]> (fs w)) (wf w) w).

Definition plyer_stop (e : env) : M world unit :=
  may_raise (close_input e);;
  modify (λ w, set_files (<[plyer_file_path w := PlatformFile (encoded e)]> (fs w)) (wf w) w).

Definition _record_with_plyer (e : env) (filepath : string)
    (duration_seconds : option Q) : M world unit :=
  try_finally
    (try_except
       (plyer_start e;;
        wait_loop duration_seconds (start_time e) (turns e);;
        plyer_stop e;;
        modify (set_plyer_file_path filepath))
       Exception
       (λ _, print "Plyer recording error";;
             _create_dummy_recording e filepath))
    (modify (set_is_recording false)).

Definition _record_worker (e : env) (filepath : string)
    (duration_seconds : option Q) : M world unit :=
  match audio_lib with
  | Some pyaudio => _record_with_pyaudio e filepath duration_seconds
  | Some sounddevice => _record_with_sounddevice e filepath duration_seconds
  | Some plyer => _record_with_plyer e filepath duration_seconds
  | None => _create_dummy_recording e filepath
  end.

End Recorder.

End AudioUtils.

(* ===================================================================== *)
(** * [services/recording_service.py]: class [RecordingService] *)
(* ===================================================================== *)

Module Service.

Record world : Type := {
  is_recording : bool;
  recording_thread : option nat;
  audio_stream : bool;                    (* [self.audio_stream] is set *)
  wave_file : option Wave.wave_write;
  wake_lock : option bool;                (* the lock, and whether it is held *)
  notification : option string;           (* the text shown, if any *)
  timers : nat;                           (* started [threading.Timer]s *)
  threads : list (string * Z);            (* started workers: their args *)
  fs : gmap string file;
  log : list string
}.

Definition set_is_recording (b : bool) (w : world) : world :=
  {| is_recording := b; recording_thread := recording_thread w;
     audio_stream := audio_stream w; wave_file := wave_file w;
     wake_lock := wake_lock w; notification := notification w;
     timers := timers w; threads := threads w; fs := fs w; log := log w |}.

Definition set_audio_stream (b : bool) (w : world) : world :=
  {| is_recording := is_recording w; recording_thread := recording_thread w;
     audio_stream := b; wave_file := wave_file w;
     wake_lock := wake_lock w; notification := notification w;
     timers := timers w; threads := threads w; fs := fs w; log := log w |}.

Definition set_files (f : gmap string file) (o : option Wave.wave_write) (w : world) : world :=
  {| is_recording := is_recording w; recording_thread := recording_thread w;
     audio_stream := audio_stream w; wave_file := o;
     wake_lock := wake_lock w; notification := notification w;
     timers := timers w; threads := threads w; fs := f; log := log w |}.

Definition set_wake_lock (l : option bool) (w : world) : world :=
  {| is_recording := is_recording w; recording_thread := recording_thread w;
     audio_stream := audio_stream w; wave_file := wave_file w;
     wake_lock := l; notification := notification w;
     timers := timers w; threads := threads w; fs := fs w; log := log w |}.

Definition set_notification (n : option string) (w : world) : world :=
  {| is_recording := is_recording w; recording_thread := recording_thread w;
     audio_stream := audio_stream w; wave_file := wave_file w;
     wake_lock := wake_lock w; notification := n;
     timers := timers w; threads := threads w; fs := fs w; log := log w |}.

Definition start_timer (w : world) : world :=
  {| is_recording := is_recording w; recording_thread := recording_thread w;
     audio_stream := audio_stream w; wave_file := wave_file w;
     wake_lock := wake_lock w; notification := notification w;
     timers := S (timers w); threads := threads w; fs := fs w; log := log w |}.

Definition start_thread (filepath : string) (duration_seconds : Z) (w : world) : world :=
  {| is_recording := is_recording w;
     recording_thread := Some (length (threads w));
     audio_stream := audio_stream w; wave_file := wave_file w;
     wake_lock := wake_lock w; notification := notification w;
     timers := timers w;
     threads := threads w ++ [(filepath, duration_seconds)];
     fs := fs w; log := log w |}.

Definition add_log (msg : string) (w : world) : world :=
  {| is_recording := is_recording w; recording_thread := recording_thread w;
     audio_stream := audio_stream w; wave_file := wave_file w;
     wake_lock := wake_lock w; notification := notification w;
     timers := timers w; threads := threads w; fs := fs w;
     log := log w ++ [msg] |}.

(** [Logger.info], [Logger.warning], [Logger.error] *)
Definition Logger (msg : string) : M world unit := modify (add_log msg).

Definition chunk : Z := 1024.
Definition channels : Z := 1.
Definition rate : Z := 44100.
Definition sample_size : Z := 2.

(** What [start_recording] meets outside the object. *)
Record start_env : Type := {
  acquire : option exn;        (* wake_lock.acquire() raises *)
  timestamp : string;          (* now, as %Y%m%d_%H%M%S *)
  recordings_dir : exn + string;   (* get_recordings_directory() *)
  thread_start : option exn    (* Thread.start() raises *)
}.

(** What the worker meets, as for [AudioRecorder]. *)
Record env : Type := {
  open_input : option exn;     (* PyAudio() or audio.open raise *)
  open_output : option exn;    (* wave.open cannot write the path *)
  start_time : Q;
  turns : list turn;
  close_input : option exn     (* stop_stream, close or terminate raise *)
}.

Section RecordingService.

(** Whether [import pyaudio] has worked: the module variable [pyaudio]
    is the module, or [None]. *)
Variable pyaudio : bool.

(** [platform == 'android'], with the service bridge at hand. *)
Variable android : bool.

(** Both catch what the bridge raises. *)
Definition show_notification (message : string) : M world unit :=
  if android then modify (set_notification (Some message)) else mret tt.

Definition hide_notification : M world unit :=
  if android then modify (set_notification None) else mret tt.

(** [self.wave_file] becomes [o], and the file on disk what [o] has
    written. *)
Definition put_wave_file (o : Wave.wave_write) (w : world) : world :=
  set_files (<[Wave.ww_path o := Wave.on_disk o]> (fs w)) (Some o) w.

(** A method call on [self.wave_file]. *)
Definition wave_call (f : Wave.wave_write → Wave.wave_write) : M world unit :=
  modify (λ w, if wave_file w is Some o then put_wave_file (f o) w else w).

Definition stop_recording : M world unit :=
  r ← gets is_recording;
  if negb r then mret tt
  else
    try_except
      (modify (set_is_recording false);;
       (* join(timeout=5.0) *)
       s ← gets audio_stream;
       (if s : bool then modify (set_audio_stream false) else mret tt);;
       o ← gets wave_file;
       (if o is Some _
        then wave_call Wave.close;; modify (λ w, set_files (fs w) None w)
        else mret tt);;
       hide_notification;;
       l ← gets wake_lock;
       (if l is Some true then modify (set_wake_lock (Some false)) else mret tt);;
       Logger "Recording stopped")
      Exception
      (λ _, Logger "Error stopping recording").

Definition start_recording (e : start_env) (duration_minutes : Z) : M world unit :=
  r ← gets is_recording;
  if r : bool then Logger "Recording already in progress"
  else
    try_except
      (l ← gets wake_lock;
       (if l is Some _
        then may_raise (acquire e);; modify (set_wake_lock (Some true))
        else mret tt);;
       let filename := "recording_" +:+ timestamp e +:+ ".wav" in
       dir ← match recordings_dir e with
             | inr d => mret d
             | inl err => raise err
             end;
       let filepath := dir +:+ "/" +:+ filename in
       show_notification "Recording...";;
       modify (set_is_recording true);;
       modify (start_thread filepath (duration_minutes * 60));;
       may_raise (thread_start e);;
       Logger ("Started recording to " +:+ filepath))
      Exception
      (λ _, Logger "Error starting recording";; stop_recording).

Definition interleave (t : turn) : M world unit :=
  if stop_called t then modify (set_is_recording false) else mret tt.

(** [while self.is_recording and (time.time() - start_time) < duration_seconds:] *)
Fixpoint record_loop (duration_seconds : Z) (start : Q) (ts : list turn) : M world unit :=
  match ts with
  | [] => running
  | t :: ts' =>
      interleave t;;
      r ← gets is_recording;
      if r && negb (Qle_bool (inject_Z duration_seconds) (now t - start)) then
        match read t with
        | inr data =>
            wave_call (Wave.writeframes data);;
            record_loop duration_seconds start ts'
        | inl _ => Logger "Error reading audio data"
        end
      else mret tt
  end.

Definition _record_audio (e : env) (filepath : string) (duration_seconds : Z) : M world unit :=
  if negb pyaudio then Logger "PyAudio not available"
  else
    try_finally
      (try_except
         (may_raise (open_input e);;
          modify (set_audio_stream true);;
          may_raise (open_output e);;
          modify (put_wave_file (Wave.open filepath));;
          wave_call (Wave.setnchannels channels);;
          wave_call (Wave.setsampwidth sample_size);;
          wave_call (Wave.setframerate rate);;
          Logger ("Recording audio to " +:+ filepath);;
          record_loop duration_seconds (start_time e) (turns e);;
          wave_call Wave.close;;
          modify (λ w, set_files (fs w) None w);;
          may_raise (close_input e);;
          modify (set_audio_stream false);;
          r ← gets is_recording;
          (if r : bool
           then show_notification "Recording saved";; modify start_timer
           else mret tt);;
          Logger ("Recording completed: " +:+ filepath))
         Exception
         (λ _, Logger "Error during recording"))
      (modify (set_is_recording false)).

End RecordingService.

End Service.

(* ===================================================================== *)
(** * [datetime] *)
(* ===================================================================== *)

Module Datetime.

(** A naive [datetime.datetime].  The date is kept as its proleptic
    Gregorian ordinal ([toordinal()]), which is how the library adds a
    [timedelta]; the bounds on the year are left out. *)
Record datetime : Type := {
  ordinal : Z;
  hour : Z;
  minute : Z;
  second : Z;
  microsecond : Z
}.

(** The ranges the constructor enforces. *)
Definition valid (d : datetime) : Prop :=
  0 <= hour d < 24 ∧ 0 <= minute d < 60 ∧ 0 <= second d < 60 ∧
  0 <= microsecond d < 1000000.

(** [d.replace(hour=h, minute=m, second=s, microsecond=us)]; a field out
    of range is a [ValueError]. *)
Definition replace (d : datetime) (h m s us : Z) : exn + datetime :=
  if (0 <=? h) && (h <? 24) && (0 <=? m) && (m <? 60) &&
     (0 <=? s) && (s <? 60) && (0 <=? us) && (us <? 1000000)
  then inr {| ordinal := ordinal d; hour := h; minute := m;
              second := s; microsecond := us |}
  else inl ValueError.

(** [a <= b]: the fields are compared in order. *)
Definition le (a b : datetime) : bool :=
  match ordinal a ?= ordinal b with
  | Lt => true | Gt => false
  | Eq =>
    match hour a ?= hour b with
    | Lt => true | Gt => false
    | Eq =>
      match minute a ?= minute b with
      | Lt => true | Gt => false
      | Eq =>
        match second a ?= second b with
        | Lt => true | Gt => false
        | Eq => microsecond a <=? microsecond b
        end
      end
    end
  end.

(** [d + datetime.timedelta(days=n)] *)
Definition add_days (d : datetime) (n : Z) : datetime :=
  {| ordinal := ordinal d + n; hour := hour d; minute := minute d;
     second := second d; microsecond := microsecond d |}.

(** The instant of [d] in microseconds since the start of day 0. *)
Definition micros (d : datetime) : Z :=
  (((ordinal d * 24 + hour d) * 60 + minute d) * 60 + second d) * 1000000
  + microsecond d.

(** [d.timestamp()] in seconds, up to the constant offset of the epoch and
    of the local time zone. *)
Definition timestamp (d : datetime) : Q := micros d # 1000000.

End Datetime.

(* ===================================================================== *)
(** * [app/main.py]: class [VoiceRecorderApp] *)
(* ===================================================================== *)

Module App.
Import Datetime.

(** What a [JsonStore] entry holds under a key. *)
Inductive value : Type :=
| VInt (z : Z)
| VFloat (q : Q)
| VBool (b : bool).

Record world : Type := {
  store : gmap string (gmap string value);   (* recording_settings.json *)
  hour_spinner : string;                     (* the [text] of each widget *)
  minute_spinner : string;
  duration_input : string;
  status_label : string;
  schedule_btn : string;
  is_recording : bool;
  alarm : option (Z * Z);     (* the pending alarm: milliseconds, duration *)
  log : list string
}.

Definition set_store (s : gmap string (gmap string value)) (w : world) : world :=
  {| store := s; hour_spinner := hour_spinner w;
     minute_spinner := minute_spinner w; duration_input := duration_input w;
     status_label := status_label w; schedule_btn := schedule_btn w;
     is_recording := is_recording w; alarm := alarm w; log := log w |}.

Definition set_hour_spinner (t : string) (w : world) : world :=
  {| store := store w; hour_spinner := t;
     minute_spinner := minute_spinner w; duration_input := duration_input w;
     status_label := status_label w; schedule_btn := schedule_btn w;
     is_recording := is_recording w; alarm := alarm w; log := log w |}.

Definition set_minute_spinner (t : string) (w : world) : world :=
  {| store := store w; hour_spinner := hour_spinner w;
     minute_spinner := t; duration_input := duration_input w;
     status_label := status_label w; schedule_btn := schedule_btn w;
     is_recording := is_recording w; alarm := alarm w; log := log w |}.

Definition set_duration_input (t : string) (w : world) : world :=
  {| store := store w; hour_spinner := hour_spinner w;
     minute_spinner := minute_spinner w; duration_input := t;
     status_label := status_label w; schedule_btn := schedule_btn w;
     is_recording := is_recording w; alarm := alarm w; log := log w |}.

Definition set_status_label (t : string) (w : world) : world :=
  {| store := store w; hour_spinner := hour_spinner w;
     minute_spinner := minute_spinner w; duration_input := duration_input w;
     status_label := t; schedule_btn := schedule_btn w;
     is_recording := is_recording w; alarm := alarm w; log := log w |}.

Definition set_schedule_btn (t : string) (w : world) : world :=
  {| store := store w; hour_spinner := hour_spinner w;
     minute_spinner := minute_spinner w; duration_input := duration_input w;
     status_label := status_label w; schedule_btn := t;
     is_recording := is_recording w; alarm := alarm w; log := log w |}.

Definition set_alarm (a : option (Z * Z)) (w : world) : world :=
  {| store := store w; hour_spinner := hour_spinner w;
     minute_spinner := minute_spinner w; duration_input := duration_input w;
     status_label := status_label w; schedule_btn := schedule_btn w;
     is_recording := is_recording w; alarm := a; log := log w |}.

Definition Logger (msg : string) : M world unit := modify (λ w,
  {| store := store w; hour_spinner := hour_spinner w;
     minute_spinner := minute_spinner w; duration_input := duration_input w;
     status_label := status_label w; schedule_btn := schedule_btn w;
     is_recording := is_recording w; alarm := alarm w;
     log := log w ++ [msg] |}).

(** [self.store.put(key, **entry)]: the entry under [key] is replaced. *)
Definition store_put (key : string) (entry : gmap string value) : M world unit :=
  modify (λ w, set_store (<[key := entry]> (store w)) w).

(** [str(z)] and [f"{z:02d}"] of an integer. *)
Definition str (z : Z) : string :=
  DecimalString.NilZero.string_of_int (Z.to_int z).

Definition format_02d (z : Z) : string :=
  if (0 <=? z) && (z <? 10) then "0" +:+ str z else str z.

(** What a call meets outside the object. *)
Record env : Type := {
  now : datetime;                  (* datetime.datetime.now() *)
  bridge : option exn              (* the alarm calls of the bridge raise *)
}.

Section VoiceRecorderApp.

(** [int(text)] of the builtin: [None] where it raises [ValueError]. *)
Variable int : string → option Z.

(** [d.strftime("%Y-%m-%d %H:%M")] *)
Variable strftime : datetime → string.

(** [str(x)] of a float. *)
Variable repr : Q → string.

(** [platform == 'android'] *)
Variable android : bool.

Definition parse (text : string) : M world Z :=
  match int text with
  | Some z => mret z
  | None => raise ValueError
  end.

Definition schedule_android_alarm (e : env) (scheduled_time : datetime)
    (duration : Z) : M world unit :=
  if negb android then mret tt
  else
    try_except
      (may_raise (bridge e);;
       let alarm_time := int_of_Q (timestamp scheduled_time * 1000) in
       modify (set_alarm (Some (alarm_time, duration)));;
       Logger "Alarm scheduled")
      Exception
      (λ _, Logger "Error scheduling alarm";;
            modify (set_status_label "Error scheduling"))%string.

Definition cancel_android_alarm (e : env) : M world unit :=
  if negb android then mret tt
  else
    try_except
      (may_raise (bridge e);;
       modify (set_alarm None);;
       Logger "Alarm cancelled")
      Exception
      (λ _, Logger "Error cancelling alarm").

(** The next occurrence of [hour]:[minute] after [now]. *)
Definition next_occurrence (now : datetime) (hour minute : Z) : exn + datetime :=
  match replace now hour minute 0 0 with
  | inr scheduled_time =>
      inr (if le scheduled_time now then add_days scheduled_time 1
           else scheduled_time)
  | inl err => inl err
  end.

Definition schedule_recording (e : env) : M world unit :=
  try_except
    (hour ← gets hour_spinner ≫= parse;
     minute ← gets minute_spinner ≫= parse;
     duration ← gets duration_input ≫= parse;
     if duration <=? 0 then
       modify (set_status_label "Error: Duration must be positive")
     else
       scheduled_time ← match next_occurrence (now e) hour minute with
                        | inr d => mret d
                        | inl err => raise err
                        end;
       store_put "recording"
         (<["hour" := VInt hour]>
          (<["minute" := VInt minute]>
           (<["duration" := VInt duration]>
            (<["scheduled_timestamp" := VFloat (timestamp scheduled_time)]>
             (<["is_scheduled" := VBool true]> ∅)))));;
       (if android then schedule_android_alarm e scheduled_time duration
        else mret tt);;
       modify (set_status_label
                 ("Recording scheduled for " +:+ strftime scheduled_time));;
       modify (set_schedule_btn "Reschedule Recording"))
    is_ValueError
    (λ _, modify (set_status_label "Error: Please enter valid numbers")).

Definition cancel_recording (e : env) : M world unit :=
  store_put "recording" (<["is_scheduled" := VBool false]> ∅);;
  (if android then cancel_android_alarm e else mret tt);;
  modify (set_status_label "Recording cancelled");;
  modify (set_schedule_btn "Schedule Recording").

(** [f"{v:02d}"]: a float has no [d] format. *)
Definition format_value_02d (v : value) : M world string :=
  match v with
  | VInt z => mret (format_02d z)
  | VBool b => mret (format_02d (if b then 1 else 0))
  | VFloat _ => raise ValueError
  end.

(** [str(v)] *)
Definition str_value (v : value) : string :=
  match v with
  | VInt z => str z
  | VBool b => if b then "True" else "False"
  | VFloat q => repr q
  end.

Definition load_settings : M world unit :=
  s ← gets store;
  match s !! "recording" with
  | Some settings =>
      (if settings !! "hour" is Some v
       then t ← format_value_02d v; modify (set_hour_spinner t)
       else mret tt);;
      (if settings !! "minute" is Some v
       then t ← format_value_02d v; modify (set_minute_spinner t)
       else mret tt);;
      (if settings !! "duration" is Some v
       then modify (set_duration_input (str_value v))
       else mret tt)
  | None => mret tt
  end.

End VoiceRecorderApp.

(** The decimal fragment of [int(text)]: an optional sign and digits. *)
Fixpoint digits (cs : list ascii) (acc : Z) : option Z :=
  match cs with
  | [] => Some acc
  | c :: rest =>
      let n := Z.of_nat (nat_of_ascii c) in
      if (48 <=? n) && (n <=? 57) then digits rest (10 * acc + (n - 48))
      else None
  end.

Definition int_decimal (text : string) : option Z :=
  match list_ascii_of_string text with
  | [] => None
  | c :: rest =>
      if Ascii.eqb c "-" then
        (if rest is [] then None else Z.opp <$> digits rest 0)
      else if Ascii.eqb c "+" then
        (if rest is [] then None else digits rest 0)
      else digits (c :: rest) 0
  end.

End App.

(* ===================================================================== *)
(** * Vocabulary of the properties *)
(* ===================================================================== *)

(** The header of a PCM file whose data chunk has [n] bytes. *)
Definition pcm_header (nchannels framerate sampwidth n : Z) : wav_header :=
  {| riff_size := 36 + n; format_tag := WAVE_FORMAT_PCM;
     h_nchannels := nchannels; h_framerate := framerate;
     h_byterate := nchannels * framerate * sampwidth;
     h_blockalign := nchannels * sampwidth;
     h_bitspersample := sampwidth * 8; data_size := n |}.

(** A finished recording: one channel, 16-bit samples, 44100 Hz, and a
    header whose lengths are those of the data that follow it. *)
Definition recording_of (data : list byte) : file :=
  WavFile (Some (pcm_header 1 44100 2 (Z.of_nat (length data)))) data.

Definition is_recording_file (f : file) : bool :=
  match f with
  | WavFile (Some h) data =>
      bool_decide (h = pcm_header 1 44100 2 (Z.of_nat (length data)))
  | _ => false
  end.

(** Its length in frames (two bytes each). *)
Definition frames (f : file) : Z :=
  match f with
  | WavFile _ data => Z.of_nat (length data) / 2
  | PlatformFile _ => 0
  end.

(** A recorder that has never been used, and one that is recording. *)
Definition fresh_recorder : AudioUtils.world :=
  {| AudioUtils.is_recording := false; AudioUtils.recording_thread := None;
     AudioUtils.audio_data := []; AudioUtils.threads := [];
     AudioUtils.fs := ∅; AudioUtils.wf := None;
     AudioUtils.plyer_file_path := "/sdcard/testrecorder.3gp";
     AudioUtils.stdout := [] |}.

Definition busy_recorder : AudioUtils.world :=
  {| AudioUtils.is_recording := true; AudioUtils.recording_thread := Some 0%nat;
     AudioUtils.audio_data := [];
     AudioUtils.threads := [("/sdcard/VoiceRecordings/first.wav"%string, None)];
     AudioUtils.fs := ∅; AudioUtils.wf := None;
     AudioUtils.plyer_file_path := "/sdcard/testrecorder.3gp";
     AudioUtils.stdout := [] |}.

Definition fresh_service : Service.world :=
  {| Service.is_recording := false; Service.recording_thread := None;
     Service.audio_stream := false; Service.wave_file := None;
     Service.wake_lock := None; Service.notification := None;
     Service.timers := 0; Service.threads := []; Service.fs := ∅;
     Service.log := [] |}.

Definition calm_start : Service.start_env :=
  {| Service.acquire := None; Service.timestamp := "20240101_120000";
     Service.recordings_dir := inr "/sdcard/VoiceRecordings"%string;
     Service.thread_start := None |}.

(** An application with the form as [build] leaves it and an empty
    store; one whose duration field is empty; one with a stored
    schedule. *)
Definition fresh_app : App.world :=
  {| App.store := ∅; App.hour_spinner := "12"; App.minute_spinner := "00";
     App.duration_input := "5"; App.status_label := "No recording scheduled";
     App.schedule_btn := "Schedule Recording"; App.is_recording := false;
     App.alarm := None; App.log := [] |}.

Definition blank_duration_app : App.world :=
  App.set_duration_input "" fresh_app.

Definition scheduled_app : App.world :=
  App.set_store
    {[ "recording"%string :=
         <["hour"%string := App.VInt 7]>
           (<["minute"%string := App.VInt 30]>
             (<["duration"%string := App.VInt 5]>
               (<["is_scheduled"%string := App.VBool true]> ∅))) ]}
    fresh_app.

(** 12:00:00.5 on day 738000, and the bridge at work. *)
Definition half_past_noon : App.env :=
  {| App.now := {| Datetime.ordinal := 738000; Datetime.hour := 12;
                   Datetime.minute := 0; Datetime.second := 0;
                   Datetime.microsecond := 500000 |};
     App.bridge := None |}.

(** A stand-in for [strftime] that shows the time of day only. *)
Definition hour_minute (d : Datetime.datetime) : string :=
  App.format_02d (Datetime.hour d) +:+ ":" +:+ App.format_02d (Datetime.minute d).

(** The length of a day in microseconds. *)
Definition day_micros : Z := 86400 * 1000000.

(** Today's [hour]:[minute]:00 on the day of [now]. *)
Definition today_at (now : Datetime.datetime) (hour minute : Z) : Datetime.datetime :=
  {| Datetime.ordinal := Datetime.ordinal now; Datetime.hour := hour;
     Datetime.minute := minute; Datetime.second := 0;
     Datetime.microsecond := 0 |}.

(** ** The course of a recording loop *)

(** How a loop ends: the flag was found false, the duration was over, a
    read failed, or the loop is still going when the observation ends. *)
Inductive ending : Type := Stopped | Expired | ReadFailed | Unfinished.

Global Instance ending_eq_dec : EqDecision ending.
Proof. solve_decision. Defined.

(** What a reading loop does with the turns it meets: the blocks it
    writes, in order, and how it ends.  [over t] is the loop's test of the
    clock reading [t]; [recording] is the flag on entry. *)
Fixpoint course (over : Q → bool) (recording : bool) (ts : list turn)
    : list (list byte) * ending :=
  match ts with
  | [] => ([], Unfinished)
  | t :: ts' =>
      if negb (recording && negb (stop_called t)) then ([], Stopped)
      else if over (now t) then ([], Expired)
      else
        match read t with
        | inr data =>
            (data :: fst (course over true ts'), snd (course over true ts'))
        | inl _ => ([], ReadFailed)
        end
  end.

(** The same for a loop that only waits. *)
Fixpoint wait_course (over : Q → bool) (recording : bool) (ts : list turn) : ending :=
  match ts with
  | [] => Unfinished
  | t :: ts' =>
      if negb (recording && negb (stop_called t)) then Stopped
      else if over (now t) then Expired
      else wait_course over true ts'
  end.

(** The writer of a worker before its loop, and after the blocks [cs]. *)
Definition prepared (filepath : string) : Wave.wave_write :=
  Wave.setframerate 44100 (Wave.setsampwidth 2 (Wave.setnchannels 1 (Wave.open filepath))).

Definition fed (cs : list (list byte)) (o : Wave.wave_write) : Wave.wave_write :=
  fold_left (λ o data, Wave.writeframes data o) cs o.

(** A writer whose counters and header agree with the file it has
    written. *)
Definition tidy (o : Wave.wave_write) : Prop :=
  Wave._nchannels o = 1 ∧ Wave._sampwidth o = 2 ∧ Wave._framerate o = 44100 ∧
  Wave._datawritten o = Z.of_nat (length (Wave.ww_data o)) ∧
  Wave.ww_hdr o =
    if Wave._headerwritten o then Some (pcm_header 1 44100 2 (Wave._datalength o))
    else None.

(** What the end of a loop leaves besides the blocks written. *)
Definition loop_outcome (en : ending) : outcome unit :=
  if en is Unfinished then Running else Returned tt.

Definition settle (en : ending) (w : AudioUtils.world) : AudioUtils.world :=
  match en with
  | Stopped => AudioUtils.set_is_recording false w
  | ReadFailed => AudioUtils.write_stdout "Error reading audio" w
  | _ => w
  end.

Definition service_settle (en : ending) (w : Service.world) : Service.world :=
  match en with
  | Stopped => Service.set_is_recording false w
  | ReadFailed => Service.add_log "Error reading audio data" w
  | _ => w
  end.

(** The test of the clock in the service's loop condition. *)
Definition service_over (duration_seconds : Z) (start t : Q) : bool :=
  Qle_bool (inject_Z duration_seconds) (t - start).




(** Two blocks of two frames each, and a turn in which the read fails. *)
Definition block_a : list byte := [x01; x00; x02; x00].
Definition block_b : list byte := [x03; x00; x04; x00].

Definition good_turn (t : Q) (data : list byte) : turn :=
  {| stop_called := false; now := t; read := inr data |}.

Definition failing_turn (t : Q) : turn :=
  {| stop_called := false; now := t; read := inl OSError |}.

Definition stop_turn (t : Q) : turn :=
  {| stop_called := true; now := t; read := inr [] |}.


Definition service_env_read_fails : Service.env :=
  {| Service.open_input := None; Service.open_output := None;
     Service.start_time := 100;
     Service.turns := [good_turn 100 block_a; good_turn 101 block_b;
                       failing_turn 102; good_turn 103 block_a];
     Service.close_input := None |}.

(** ** A backend that delivers in real time *)

(** The clock at the [k]-th test of a loop in which every read blocks
    for the length of one block, 1024 frames at 44100 Hz. *)
Definition tick_time (start : Q) (k : Z) : Q := start + (k * 1024 # 44100).

(** The turns of such a loop from the [k]-th on, with no stop and no
    failure: one turn per block delivered. *)
Fixpoint steady (start : Q) (k : Z) (blocks : list (list byte)) : list turn :=
  match blocks with
  | [] => []
  | b :: bs => good_turn (tick_time start k) b :: steady start (k + 1) bs
  end.



(** A silent block, and a backend that has delivered three. *)
Definition silence : list byte := repeat x00 2048.

Definition recorder_env_steady : AudioUtils.env :=
  {| AudioUtils.open_input := None; AudioUtils.open_output := None;
     AudioUtils.start_time := 0;
     AudioUtils.turns := steady 0 0 [silence; silence; silence];
     AudioUtils.end_time := 1; AudioUtils.close_input := None;
     AudioUtils.captured := λ _, 0; AudioUtils.encoded := [] |}.



(** ** The tone of the fallback *)

(** The samples of one second of the 440 Hz tone, packed, and the data
    they make. *)
Definition tone_blocks (tone : Z → Z → Z → Z) : list (list byte) :=
  map (λ i, le16 (tone 440 (Z.of_nat i) 44100)) (seq 0 (Z.to_nat 44100)).

Definition tone_data (tone : Z → Z → Z → Z) : list byte :=
  concat (tone_blocks tone).

(** A stand-in for the sine where one is needed to run the fallback: the
    square wave of the same frequency and amplitude. *)
Definition square_wave (freq i rate : Z) : Z :=
  if 2 * ((freq * i) mod rate) <? rate then 32767 else -32767.

(** A [start_recording], the worker it starts, and a [stop_recording]
    after it. *)
Definition start_then_stop (lib : option AudioUtils.lib) (tone : Z → Z → Z → Z)
    (e : AudioUtils.env) (filepath : string) (d : option Q) : M AudioUtils.world bool :=
  started ← AudioUtils.start_recording filepath d;
  if started : bool then
    AudioUtils._record_worker lib tone e filepath d;;
    AudioUtils.stop_recording;;
    mret true
  else mret false.

(** An environment in which a stop comes in on the second turn. *)
Definition recorder_env_stopped : AudioUtils.env :=
  {| AudioUtils.open_input := None; AudioUtils.open_output := None;
     AudioUtils.start_time := 100;
     AudioUtils.turns := [good_turn 100 block_a; stop_turn 101];
     AudioUtils.end_time := 101; AudioUtils.close_input := None;
     AudioUtils.captured := λ _, 0; AudioUtils.encoded := [xff; xfe] |}.

(** A recorder that is recording through plyer, the facade still at the
    path it starts with. *)
Definition plyer_recorder : AudioUtils.world :=
  {| AudioUtils.is_recording := true; AudioUtils.recording_thread := Some 0%nat;
     AudioUtils.audio_data := [];
     AudioUtils.threads := [("/sdcard/VoiceRecordings/rec1.wav"%string, None)];
     AudioUtils.fs := ∅; AudioUtils.wf := None;
     AudioUtils.plyer_file_path := "/sdcard/testrecorder.3gp";
     AudioUtils.stdout := [] |}.

(** An environment whose input cannot be opened, and one whose stream
    cannot be closed after a recording that was stopped. *)
Definition recorder_env_no_input : AudioUtils.env :=
  {| AudioUtils.open_input := Some BackendError; AudioUtils.open_output := None;
     AudioUtils.start_time := 100;
     AudioUtils.turns := [good_turn 100 block_a; stop_turn 101];
     AudioUtils.end_time := 101; AudioUtils.close_input := None;
     AudioUtils.captured := λ _, 0; AudioUtils.encoded := [] |}.

Definition recorder_env_close_fails : AudioUtils.env :=
  {| AudioUtils.open_input := None; AudioUtils.open_output := None;
     AudioUtils.start_time := 100;
     AudioUtils.turns := [good_turn 100 block_a; stop_turn 101];
     AudioUtils.end_time := 101; AudioUtils.close_input := Some BackendError;
     AudioUtils.captured := λ _, 0; AudioUtils.encoded := [] |}.


(** Whether the preparations of the service's [start_recording] all go
    through: the wake lock (if there is one) is acquired, the recordings
    directory is there, and the thread starts. *)
Definition start_goes_through (e : Service.start_env) (s : Service.world) : bool :=
  (if Service.wake_lock s is Some _
   then (if Service.acquire e is None then true else false) else true)
  && (if Service.recordings_dir e is inr _ then true else false)
  && (if Service.thread_start e is None then true else false).

(** A service with a wake lock that is not held; a start whose
    recordings directory cannot be made. *)
Definition service_with_lock : Service.world :=
  Service.set_wake_lock (Some false) fresh_service.

Definition start_without_directory : Service.start_env :=
  {| Service.acquire := None; Service.timestamp := "20240101_120000";
     Service.recordings_dir := inl OSError;
     Service.thread_start := None |}.



(** A service environment whose first test of the clock comes one
    second after the start. *)
Definition service_env_late : Service.env :=
  {| Service.open_input := None; Service.open_output := None;
     Service.start_time := 100;
     Service.turns := [good_turn 101 block_a; good_turn 102 block_b];
     Service.close_input := None |}.

(** The form with a duration of zero, with the hour 24, and an
    environment whose bridge fails. *)
Definition zero_duration_app : App.world :=
  App.set_duration_input "0" fresh_app.


Definition half_past_noon_no_bridge : App.env :=
  {| App.now := App.now half_past_noon; App.bridge := Some BackendError |}.

(** The entry that [schedule_recording] stores. *)
Definition schedule_entry (h m d : Z) (s : Datetime.datetime) : gmap string App.value :=
  <["hour"%string := App.VInt h]>
    (<["minute"%string := App.VInt m]>
      (<["duration"%string := App.VInt d]>
        (<["scheduled_timestamp"%string := App.VFloat (Datetime.timestamp s)]>
          (<["is_scheduled"%string := App.VBool true]> ∅)))).

(* ===================================================================== *)
(** * [app/main.py]: the periodic refresh of [VoiceRecorderApp] *)
(* ===================================================================== *)

Module AppStatus.
Import Datetime.

(** [round(x)] to the nearest integer, a tie to the even one. *)
Definition round_half_even (q : Q) : Z :=
  let f := Qfloor q in
  match Qcompare (q - inject_Z f) (1 # 2) with
  | Lt => f
  | Gt => f + 1
  | Eq => if Z.even f then f else f + 1
  end.

(** The datetime that lies [us] microseconds after the start of day 0. *)
Definition of_micros (us : Z) : datetime :=
  {| ordinal := us / 1000000 / 60 / 60 / 24;
     hour := (us / 1000000 / 60 / 60) mod 24;
     minute := (us / 1000000 / 60) mod 60;
     second := (us / 1000000) mod 60;
     microsecond := us mod 1000000 |}.

(** [datetime.datetime.fromtimestamp(t)], the inverse of [timestamp()]
    up to the rounding to microseconds. *)
Definition fromtimestamp (t : Q) : datetime :=
  of_micros (round_half_even (t * 1000000)).

(** [a < b] *)
Definition lt (a b : datetime) : bool := negb (le b a).

(** A stored value in a condition, and as a number. *)
Definition truth (v : App.value) : bool :=
  match v with
  | App.VBool b => b
  | App.VInt z => negb (z =? 0)
  | App.VFloat q => negb (Qeq_bool q 0)
  end.

Definition number (v : App.value) : Q :=
  match v with
  | App.VBool b => if b then 1 else 0
  | App.VInt z => inject_Z z
  | App.VFloat q => q
  end.

(** [text.endswith(suffix)] *)
Fixpoint startswith (prefix text : list ascii) : bool :=
  match prefix, text with
  | [], _ => true
  | p :: ps, c :: cs => Ascii.eqb p c && startswith ps cs
  | _ :: _, [] => false
  end.

Definition endswith (text suffix : string) : bool :=
  startswith (rev (list_ascii_of_string suffix)) (rev (list_ascii_of_string text)).

(** ['\n'.join(lines)] *)
Fixpoint join_lines (lines : list string) : string :=
  match lines with
  | [] => ""
  | [l] => l
  | l :: rest => l +:+ String "010" (join_lines rest)
  end.

(** [recordings.sort(key=lambda x: x[1], reverse=True)]: the newest
    first, entries of equal time in the order they had. *)
Fixpoint insert_desc (x : string * datetime) (l : list (string * datetime))
    : list (string * datetime) :=
  match l with
  | [] => [x]
  | y :: l' => if lt (snd x) (snd y) then y :: insert_desc x l' else x :: l
  end.

Definition sort_desc (l : list (string * datetime)) : list (string * datetime) :=
  foldr insert_desc [] l.

(** The application, the text of the recordings label, and the
    recordings directory: absent, or its files with their modification
    times in the order of [os.listdir]. *)
Record world : Type := {
  app : App.world;
  recordings_list : string;
  recordings_dir : option (list (string * Q))
}.

Definition set_app (a : App.world) (w : world) : world :=
  {| app := a; recordings_list := recordings_list w;
     recordings_dir := recordings_dir w |}.

Definition set_recordings_list (t : string) (w : world) : world :=
  {| app := app w; recordings_list := t; recordings_dir := recordings_dir w |}.

Definition set_recordings_dir (d : option (list (string * Q))) (w : world) : world :=
  {| app := app w; recordings_list := recordings_list w; recordings_dir := d |}.

Record env : Type := {
  now : datetime;              (* datetime.datetime.now() *)
  makedirs : option exn        (* os.makedirs raises *)
}.

Section Refresh.

(** [d.strftime("%Y-%m-%d %H:%M")] *)
Variable strftime : datetime → string.

(** [get_recordings_directory]: the directory is made when it is not
    there. *)
Definition get_recordings_directory (e : env) : M world unit :=
  d ← gets recordings_dir;
  if d is None
  then may_raise (makedirs e);; modify (set_recordings_dir (Some []))
  else mret tt.

(** The wave files of a listing with their times, and the lines shown. *)
Definition wave_files (listing : list (string * Q)) : list (string * datetime) :=
  map (λ f, (fst f, fromtimestamp (snd f)))
      (filter (λ f, endswith (fst f) ".wav" = true) listing).

Definition line (r : string * datetime) : string :=
  fst r +:+ " - " +:+ strftime (snd r).

Definition update_recordings_list (e : env) : M world unit :=
  get_recordings_directory e;;
  d ← gets recordings_dir;
  match d with
  | Some listing =>
      let recordings := sort_desc (wave_files listing) in
      if recordings is [] then modify (set_recordings_list "No recordings yet")
      else modify (set_recordings_list (join_lines (map line (take 5 recordings))))
  | None => modify (set_recordings_list "No recordings directory found")
  end.

Definition set_status (t : string) : M world unit :=
  modify (λ w, set_app (App.set_status_label t (app w)) w).

Definition update_status (e : env) : M world unit :=
  s ← gets (λ w, App.store (app w));
  (match s !! "recording"%string with
   | Some settings =>
       if truth (default (App.VBool false) (settings !! "is_scheduled"%string)) then
         let scheduled_timestamp :=
           number (default (App.VInt 0) (settings !! "scheduled_timestamp"%string)) in
         let scheduled_time := fromtimestamp scheduled_timestamp in
         if lt (now e) scheduled_time then
           let total := (micros scheduled_time - micros (now e)) / 1000000 in
           let hours := total / 3600 in
           let remainder := total mod 3600 in
           let minutes := remainder / 60 in
           let seconds := remainder mod 60 in
           set_status ("Recording in " +:+ App.format_02d hours +:+ ":"
                       +:+ App.format_02d minutes +:+ ":" +:+ App.format_02d seconds)
         else set_status "Recording should be active"
       else mret tt
   | None => mret tt
   end);;
  update_recordings_list e.

End Refresh.

End AppStatus.

(* ===================================================================== *)
(** * [main.py]: class [SimpleVoiceRecorderApp] *)
(* ===================================================================== *)

Module SimpleApp.

Record world : Type := {
  store : gmap string (gmap string App.value);
  hour_spinner : string;
  minute_spinner : string;
  duration_input : string;
  status_label : string
}.

Definition set_status_label (t : string) (w : world) : world :=
  {| store := store w; hour_spinner := hour_spinner w;
     minute_spinner := minute_spinner w; duration_input := duration_input w;
     status_label := t |}.

Definition set_store (s : gmap string (gmap string App.value)) (w : world) : world :=
  {| store := s; hour_spinner := hour_spinner w;
     minute_spinner := minute_spinner w; duration_input := duration_input w;
     status_label := status_label w |}.

Section SimpleVoiceRecorderApp.

(** [int(text)] of the builtin: [None] where it raises [ValueError]. *)
Variable int : string → option Z.

Definition parse (text : string) : M world Z :=
  match int text with
  | Some z => mret z
  | None => raise ValueError
  end.

Definition schedule_recording : M world unit :=
  hour ← gets hour_spinner;
  minute ← gets minute_spinner;
  duration ← gets duration_input;
  modify (set_status_label
            ("Would schedule recording at " +:+ hour +:+ ":" +:+ minute
             +:+ " for " +:+ duration +:+ " minutes"));;
  h ← parse hour;
  m ← parse minute;
  d ← parse duration;
  modify (λ w, set_store
                 (<["recording"%string :=
                      <["hour"%string := App.VInt h]>
                        (<["minute"%string := App.VInt m]>
                          (<["duration"%string := App.VInt d]>
                            (<["scheduled"%string := App.VBool true]> ∅)))]>
                    (store w)) w).

End SimpleVoiceRecorderApp.

End SimpleApp.


(** The application with a schedule for day 738001 at 07:30, stored as
    [schedule_recording] stores it, and a directory with three files. *)
Definition day_738001_0730 : Datetime.datetime :=
  {| Datetime.ordinal := 738001; Datetime.hour := 7; Datetime.minute := 30;
     Datetime.second := 0; Datetime.microsecond := 0 |}.

Definition refreshed_app : AppStatus.world :=
  {| AppStatus.app :=
       App.set_store {[ "recording"%string := schedule_entry 7 30 5 day_738001_0730 ]}
         fresh_app;
     AppStatus.recordings_list := "No recordings yet";
     AppStatus.recordings_dir :=
       Some [("a.wav"%string, 10%Q); ("notes.txt"%string, 30%Q); ("b.wav"%string, 20%Q)] |}.



Definition blank_simple_app : SimpleApp.world :=
  {| SimpleApp.store := ∅; SimpleApp.hour_spinner := "12";
     SimpleApp.minute_spinner := "00"; SimpleApp.duration_input := "";
     SimpleApp.status_label := "Simple Voice Recorder Ready" |}.

(** The same application before the recordings directory exists, and an
    environment in which it cannot be made. *)
Definition app_without_directory : AppStatus.world :=
  AppStatus.set_recordings_dir None refreshed_app.

Definition refresh_no_makedirs : AppStatus.env :=
  {| AppStatus.now := App.now half_past_noon; AppStatus.makedirs := Some OSError |}.

(* ===================================================================== *)
(** * [app/audio_utils.py]: the names of recordings *)
(* ===================================================================== *)

Module AudioUtilsPaths.

(** [os.path.join(a, b)] on a POSIX system. *)
Definition join (a b : string) : string :=
  if AppStatus.startswith ["/"%char] (list_ascii_of_string b) then b
  else if String.eqb a "" then b
  else if AppStatus.endswith a "/" then a +:+ b
  else a +:+ "/" +:+ b.

(** [create_recording_filename()], with the text that
    [strftime("%Y%m%d_%H%M%S")] gives for now. *)
Definition create_recording_filename (timestamp : string) : string :=
  "recording_" +:+ timestamp +:+ ".wav".

End AudioUtilsPaths.

(* ===================================================================== *)
(** * [build_apk.py] *)
(* ===================================================================== *)

(** The build script, as far as it runs commands and touches files; what
    it prints is left out. *)
Module BuildApk.

(** What is under a path. *)
Inductive node : Type := File | Dir.

Record world : Type := {
  fs : gmap string node;
  commands : list string          (* the shell commands run so far *)
}.

Definition set_fs (f : gmap string node) (w : world) : world :=
  {| fs := f; commands := commands w |}.

Definition add_command (c : string) (w : world) : world :=
  {| fs := fs w; commands := commands w ++ [c] |}.

Record env : Type := {
  system : string;                  (* platform.system() *)
  executable : string;              (* sys.executable *)
  succeeds : string → bool;         (* the command exits with status 0 *)
  build : gmap string node → gmap string node;
                                    (* what a buildozer run does to the files *)
  apk_files : list string;          (* list(Path("bin").glob("*.apk")), as names *)
  choice : exn + string;            (* what input() returns or raises *)
  desktop : string;                 (* Path.home() / "Desktop" *)
  io_error : string → option exn    (* copying or writing to this path fails *)
}.

(** [text.strip()], for the white space of ASCII. *)
Definition is_space (c : ascii) : bool :=
  let n := nat_of_ascii c in
  (Nat.leb 9 n && Nat.leb n 13) || (Nat.leb 28 n && Nat.leb n 32).

Fixpoint lstrip (cs : list ascii) : list ascii :=
  match cs with
  | c :: rest => if is_space c then lstrip rest else cs
  | [] => []
  end.

Definition strip (text : string) : string :=
  string_of_list_ascii
    (rev (lstrip (rev (lstrip (list_ascii_of_string text))))).

(** [Path(p).mkdir(exist_ok=True)]; [parent] is the directory that has to
    be there, [None] for the working directory. *)
Definition mkdir (parent : option string) (p : string) : M world unit :=
  f ← gets fs;
  match f !! p with
  | Some Dir => mret tt
  | Some File => raise OSError
  | None =>
      match parent with
      | None => modify (set_fs (<[p := Dir]> f))
      | Some q =>
          match f !! q with
          | Some Dir => modify (set_fs (<[p := Dir]> f))
          | _ => raise OSError
          end
      end
  end.

(** [Path(p).write_text(...)] *)
Definition write_text (e : env) (p : string) : M world unit :=
  f ← gets fs;
  if f !! p is Some Dir then raise OSError
  else may_raise (io_error e p);; modify (set_fs (<[p := File]> f)).

(** [shutil.copy2(src, dst)], where [name] is the last part of [src]. *)
Definition copy2 (e : env) (src name dst : string) : M world unit :=
  f ← gets fs;
  match f !! src with
  | Some File =>
      let target := if f !! dst is Some Dir then dst +:+ "/" +:+ name else dst in
      may_raise (io_error e target);; modify (set_fs (<[target := File]> f))
  | _ => raise OSError
  end.

(** [shutil.rmtree(p, ignore_errors=True)] of a directory: it goes with
    all that is under it. *)
Definition rmtree (p : string) : M world unit :=
  modify (λ w, set_fs
    (filter (λ kv, negb (String.eqb (fst kv) p)
                   && negb (AppStatus.startswith (list_ascii_of_string (p +:+ "/"))
                                                 (list_ascii_of_string (fst kv))) = true)
            (fs w)) w).

Definition exists_ (p : string) : M world bool :=
  f ← gets fs; mret (if f !! p is Some _ then true else false).

(** [run_command(command)]: [True] when the command exits with 0.  The
    checks and the installs are taken to leave the files of the project
    alone; what the build does to them is [build]. *)
Definition run_command (e : env) (command : string) : M world bool :=
  modify (add_command command);;
  mret (succeeds e command).

Definition check_prerequisites (e : env) : M world bool :=
  java_check ← run_command e "java -version";
  git_check ← run_command e "git --version";
  mret true.

Definition dependencies : list string :=
  ["buildozer"; "kivy[base]"; "cython"; "pyaudio"; "plyer"; "pyjnius"]%string.

(** The double quote. *)
Definition quote : ascii := "034"%char.

Definition pip_install (e : env) (dep : string) : string :=
  String quote (executable e) +:+ String quote " -m pip install " +:+ dep.

Fixpoint install_each (e : env) (deps : list string) : M world unit :=
  match deps with
  | [] => mret tt
  | dep :: rest =>
      success ← run_command e (pip_install e dep);
      install_each e rest
  end.

Definition install_dependencies (e : env) : M world bool :=
  install_each e dependencies;; mret true.

Definition setup_android_environment (e : env) : M world bool :=
  (if String.eqb (system e) "Windows"
   then mkdir (Some "app"%string) "app/dist"
   else mret tt);;
  mret true.

Definition create_init (e : env) (init_file : string) : M world unit :=
  there ← exists_ init_file;
  if there : bool then mret tt else write_text e init_file.

Definition create_required_files (e : env) : M world bool :=
  mkdir None "app";;
  mkdir None "services";;
  create_init e "app/__init__.py";;
  create_init e "services/__init__.py";;
  main_file ← exists_ "app/main.py";
  if negb main_file then mret false
  else
    spec_file ← exists_ "buildozer.spec";
    if negb spec_file then mret false else mret true.

Definition clean_dir (dir_name : string) : M world unit :=
  f ← gets fs;
  match f !! dir_name with
  | Some Dir => rmtree dir_name
  | _ => mret tt          (* absent, or a file: the error is ignored *)
  end.

Definition clean_build : M world bool :=
  clean_dir ".buildozer";; clean_dir "bin";; clean_dir "__pycache__";; mret true.

(** One of [files_to_copy]: the source, its last part, the directory of
    the destination below the package, and the destination there. *)
Definition files_to_copy : list (string * string * option string * string) :=
  [("buildozer.spec", "buildozer.spec", None, "buildozer.spec");
   ("app/main.py", "main.py", Some "app", "app/main.py");
   ("app/audio_utils.py", "audio_utils.py", Some "app", "app/audio_utils.py");
   ("app/__init__.py", "__init__.py", Some "app", "app/__init__.py");
   ("services/recording_service.py", "recording_service.py", Some "services",
    "services/recording_service.py");
   ("services/service.py", "service.py", Some "services", "services/service.py");
   ("services/__init__.py", "__init__.py", Some "services", "services/__init__.py");
   ("requirements.txt", "requirements.txt", None, "requirements.txt");
   ("README.md", "README.md", None, "README.md")]%string.

Fixpoint copy_each (e : env) (package_dir : string)
    (files : list (string * string * option string * string)) : M world unit :=
  match files with
  | [] => mret tt
  | (src, name, sub, dst) :: rest =>
      there ← exists_ src;
      (if there : bool then
         (match sub with
          | Some d => mkdir (Some package_dir) (package_dir +:+ "/" +:+ d)
          | None => mkdir (Some "app/dist"%string) package_dir
          end);;
         copy2 e src name (package_dir +:+ "/" +:+ dst)
       else mret tt);;
      copy_each e package_dir rest
  end.

Definition create_windows_alternative (e : env) (build_type : string) : M world unit :=
  mkdir (Some "app"%string) "app/dist";;
  let package_name := "VoiceRecorder_Windows_Package_" +:+ build_type in
  let package_dir := "app/dist/" +:+ package_name in
  mkdir (Some "app/dist"%string) package_dir;;
  copy_each e package_dir files_to_copy;;
  write_text e (package_dir +:+ "/BUILD_INSTRUCTIONS.md");;
  write_text e (package_dir +:+ "/build_in_wsl.bat");;
  let zip_file := package_dir +:+ ".zip" in
  write_text e zip_file;;           (* shutil.make_archive *)
  try_except
    (copy2 e zip_file (package_name +:+ ".zip")
       (desktop e +:+ "/" +:+ package_name +:+ ".zip"))
    Exception
    (λ _, mret tt).

Definition build_command (build_type : string) : string :=
  if String.eqb build_type "debug" then "buildozer android debug"
  else "buildozer android release".

Definition build_apk (e : env) (build_type : string) : M world bool :=
  if String.eqb (system e) "Windows" then
    create_windows_alternative e build_type;; mret false
  else
    success ← run_command e (build_command build_type);
    modify (λ w, set_fs (build e (fs w)) w);;
    (if success : bool then
       mkdir (Some "app"%string) "app/dist";;
       bin ← exists_ "bin";
       if bin : bool then
         match apk_files e with
         | apk :: _ =>
             copy2 e ("bin/" +:+ apk) apk ("app/dist/" +:+ apk);;
             try_except
               (copy2 e ("bin/" +:+ apk) apk (desktop e +:+ "/" +:+ apk))
               Exception
               (λ _, mret tt)
         | [] => mret tt
         end
       else mret tt
     else mret tt);;
    mret success.

Definition build_type_of (choice : string) : string :=
  if String.eqb (strip choice) "2" then "release" else "debug".

Definition main (e : env) : M world bool :=
  try_except
    (ok ← check_prerequisites e;
     if negb ok then mret false else
     ok ← install_dependencies e;
     if negb ok then mret false else
     ok ← setup_android_environment e;
     if negb ok then mret false else
     ok ← create_required_files e;
     if negb ok then mret false else
     ok ← clean_build;
     if negb ok then mret false else
     choice ← match choice e with
              | inl x => raise x
              | inr line => mret line
              end;
     ok ← build_apk e (build_type_of choice);
     if negb ok then mret false else
     mret true)
    Exception
    (λ _, mret false).

End BuildApk.

(** The commands that the build script runs before it builds. *)
Definition prerequisites (e : BuildApk.env) : list string :=
  ["java -version"; "git --version"]%string
  ++ map (BuildApk.pip_install e) BuildApk.dependencies.

(** A step of the build script that runs no command and comes back. *)
Definition quiet {A} (m : Py.M BuildApk.world A) : Prop :=
  ∀ w, BuildApk.commands (m w).2 = BuildApk.commands w ∧ (m w).1 ≠ Py.Running.

(** The command that [build_apk] runs after the answer [line]. *)
Definition chosen_build (line : string) : string :=
  if String.eqb (BuildApk.strip line) "2" then "buildozer android release"
  else "buildozer android debug".

(** A project on Linux with both required files, where every command
    succeeds, the build leaves one package and the answer is [" 2"]. *)
Definition project_files : gmap string BuildApk.node :=
  {[ "app"%string := BuildApk.Dir;
     "app/main.py"%string := BuildApk.File;
     "buildozer.spec"%string := BuildApk.File ]}.

Definition linux_build : BuildApk.env :=
  {| BuildApk.system := "Linux";
     BuildApk.executable := "python3";
     BuildApk.succeeds := λ _, true;
     BuildApk.build := λ f,
       <["bin/voicerecorder-0.1-release.apk"%string := BuildApk.File]>
         (<["bin"%string := BuildApk.Dir]> f);
     BuildApk.apk_files := ["voicerecorder-0.1-release.apk"%string];
     BuildApk.choice := inr " 2"%string;
     BuildApk.desktop := "/home/user/Desktop";
     BuildApk.io_error := λ _, None |}.

Definition windows_build : BuildApk.env :=
  {| BuildApk.system := "Windows";
     BuildApk.executable := "python";
     BuildApk.succeeds := λ _, true;
     BuildApk.build := λ f, f;
     BuildApk.apk_files := [];
     BuildApk.choice := inr "1"%string;
     BuildApk.desktop := "C:/Users/user/Desktop";
     BuildApk.io_error := λ _, None |}.

Definition project : BuildApk.world :=
  {| BuildApk.fs := project_files; BuildApk.commands := [] |}.

Definition empty_project : BuildApk.world :=
  {| BuildApk.fs := ∅; BuildApk.commands := [] |}.

(** A step that leaves what is under the path [k] as it is. *)
Definition keeps {A} (k : string) (m : Py.M BuildApk.world A) : Prop :=
  ∀ w, BuildApk.fs (m w).2 !! k = BuildApk.fs w !! k.

(** One of the two files that the build needs is not there. *)
Definition missing_required (w : BuildApk.world) : Prop :=
  BuildApk.fs w !! "app/main.py"%string = None
  ∨ BuildApk.fs w !! "buildozer.spec"%string = None.

(* ===================================================================== *)
(** * Properties *)
(* ===================================================================== *)

(** Unfolds the monad's operations in the goal. *)
Ltac mrun :=
  repeat (unfold mbind, M_bind, mret, M_ret, Py.modify, Py.gets, Py.raise,
            Py.running, Py.may_raise, Py.try_except, Py.try_finally,
            Py.Exception;
          cbn beta iota).

(** ** Starting twice *)

Lemma recorder_start_busy (filepath : string) (d : option Q) (w : AudioUtils.world) :
  AudioUtils.is_recording w = true →
  AudioUtils.start_recording filepath d w = (Returned false, w).
Proof. intros H. unfold AudioUtils.start_recording. mrun. by rewrite H. Qed.

Lemma recorder_start_idle (filepath : string) (d : option Q) (w : AudioUtils.world) :
  AudioUtils.is_recording w = false →
  ∃ w', AudioUtils.start_recording filepath d w = (Returned true, w') ∧
        AudioUtils.is_recording w' = true ∧
        AudioUtils.threads w' = AudioUtils.threads w ++ [(filepath, d)] ∧
        AudioUtils.recording_thread w' = Some (length (AudioUtils.threads w)) ∧
        AudioUtils.fs w' = AudioUtils.fs w.
Proof.
  intros H. unfold AudioUtils.start_recording. mrun. rewrite H.
  eexists; split; [reflexivity|]. by cbn.
Qed.

Lemma service_start_busy (e : Service.start_env) (android : bool) (minutes : Z)
    (w : Service.world) :
  Service.is_recording w = true →
  ∃ w', Service.start_recording android e minutes w = (Returned tt, w') ∧
        Service.is_recording w' = true ∧
        Service.threads w' = Service.threads w ∧
        Service.recording_thread w' = Service.recording_thread w ∧
        Service.wave_file w' = Service.wave_file w ∧
        Service.fs w' = Service.fs w.
Proof.
  intros H. unfold Service.start_recording. mrun. rewrite H.
  eexists; split; [reflexivity|]. by cbn.
Qed.

Lemma service_start_idle (e : Service.start_env) (android : bool) (minutes : Z)
    (w : Service.world) (dir : string) :
  Service.is_recording w = false →
  Service.acquire e = None → Service.recordings_dir e = inr dir →
  Service.thread_start e = None →
  ∃ w', Service.start_recording android e minutes w = (Returned tt, w') ∧
        Service.is_recording w' = true ∧
        length (Service.threads w') = S (length (Service.threads w)).
Proof.
  intros H Ha Hd Ht. unfold Service.start_recording, Service.show_notification.
  mrun. rewrite H, Ha, Hd, Ht. mrun.
  destruct (Service.wake_lock w), android; mrun;
    (eexists; split; [reflexivity|]); cbn;
    by rewrite length_app, Nat.add_1_r.
Qed.

(** C1. A start while a recording is in progress returns false and changes
    nothing: the flag, the worker handle, the buffered data, the started
    workers and the files are as before.  A start while no recording is in
    progress returns true, sets the flag and starts exactly one worker, so
    two starts in a row start exactly one.  The service's [start_recording]
    (which returns no value) likewise starts no worker while one is in
    progress, and exactly one otherwise when its preparations succeed. *)
Theorem start_twice_one_worker
    (filepath filepath2 : string) (d d2 : option Q) (w : AudioUtils.world)
    (e : Service.start_env) (android : bool) (minutes : Z) (s : Service.world)
    (dir : string) :
  (AudioUtils.is_recording w = true →
     AudioUtils.start_recording filepath d w = (Returned false, w)) ∧
  (AudioUtils.is_recording w = false →
     ∃ w1, AudioUtils.start_recording filepath d w = (Returned true, w1) ∧
           AudioUtils.is_recording w1 = true ∧
           AudioUtils.threads w1 = AudioUtils.threads w ++ [(filepath, d)] ∧
           AudioUtils.start_recording filepath2 d2 w1 = (Returned false, w1)) ∧
  (Service.is_recording s = true →
     ∃ s1, Service.start_recording android e minutes s = (Returned tt, s1) ∧
           Service.is_recording s1 = true ∧
           Service.threads s1 = Service.threads s ∧
           Service.recording_thread s1 = Service.recording_thread s ∧
           Service.fs s1 = Service.fs s) ∧
  (Service.is_recording s = false → Service.acquire e = None →
   Service.recordings_dir e = inr dir → Service.thread_start e = None →
     ∃ s1 s2, Service.start_recording android e minutes s = (Returned tt, s1) ∧
           Service.is_recording s1 = true ∧
           length (Service.threads s1) = S (length (Service.threads s)) ∧
           Service.start_recording android e minutes s1 = (Returned tt, s2) ∧
           Service.threads s2 = Service.threads s1).
Proof.
  repeat split.
  - apply recorder_start_busy.
  - intros H. destruct (recorder_start_idle filepath d w H) as (w1 & E & F & T & _).
    exists w1. repeat split; try done. by apply recorder_start_busy.
  - intros H. destruct (service_start_busy e android minutes s H)
      as (s1 & E & F & T & R & _ & G). by exists s1.
  - intros H Ha D Ht.
    destruct (service_start_idle e android minutes s dir H Ha D Ht) as (s1 & E & F & T).
    destruct (service_start_busy e android minutes s1 F) as (s2 & E2 & _ & T2 & _).
    by exists s1, s2.
Qed.

Lemma start_twice_one_worker_witness :
  AudioUtils.start_recording "b.wav" None busy_recorder = (Returned false, busy_recorder) ∧
  (∃ w1, AudioUtils.start_recording "a.wav" (Some 3%Q) fresh_recorder = (Returned true, w1) ∧
         AudioUtils.is_recording w1 = true ∧
         AudioUtils.threads w1 = [("a.wav"%string, Some 3%Q)] ∧
         AudioUtils.start_recording "b.wav" None w1 = (Returned false, w1)) ∧
  (∃ s1 s2, Service.start_recording true calm_start 5 fresh_service = (Returned tt, s1) ∧
         Service.is_recording s1 = true ∧
         length (Service.threads s1) = 1%nat ∧
         Service.start_recording true calm_start 5 s1 = (Returned tt, s2) ∧
         Service.threads s2 = Service.threads s1).
Proof.
  split; [|split].
  - apply (start_twice_one_worker "b.wav" "b.wav" None None busy_recorder
             calm_start true 5 fresh_service "/sdcard/VoiceRecordings"). reflexivity.
  - apply (start_twice_one_worker "a.wav" "b.wav" (Some 3%Q) None fresh_recorder
             calm_start true 5 fresh_service "/sdcard/VoiceRecordings"). reflexivity.
  - apply (start_twice_one_worker "a.wav" "b.wav" None None fresh_recorder
             calm_start true 5 fresh_service "/sdcard/VoiceRecordings"); reflexivity.
Defined.

(** ** The schedule *)

Lemma cancel_recording_run (android : bool) (e : App.env) (w : App.world) :
  ∃ w', App.cancel_recording android e w = (Returned tt, w') ∧
        App.store w' = <["recording"%string := <["is_scheduled"%string := App.VBool false]> ∅]>
                         (App.store w) ∧
        App.hour_spinner w' = App.hour_spinner w ∧
        App.minute_spinner w' = App.minute_spinner w ∧
        App.duration_input w' = App.duration_input w.
Proof.
  unfold App.cancel_recording, App.cancel_android_alarm, App.store_put, App.Logger.
  destruct android; mrun.
  - destruct (App.bridge e); mrun; (eexists; split; [reflexivity|]); by cbn.
  - eexists; split; [reflexivity|]; by cbn.
Qed.

(** C10. After [cancel_recording] the stored entry is the record
    [{is_scheduled: False}] and nothing else: it has no [hour], [minute]
    or [duration], whatever was stored before, and a [load_settings] that
    follows returns with the three fields of the form as they were. *)
Theorem cancel_drops_schedule_fields
    (android : bool) (e : App.env) (w : App.world) (repr : Q → string) :
  ∃ w', App.cancel_recording android e w = (Returned tt, w') ∧
        App.store w' !! "recording"%string
          = Some (<["is_scheduled"%string := App.VBool false]> ∅) ∧
        (∀ settings, App.store w' !! "recording"%string = Some settings →
           settings !! "hour"%string = None ∧
           settings !! "minute"%string = None ∧
           settings !! "duration"%string = None ∧
           settings !! "is_scheduled"%string = Some (App.VBool false)) ∧
        App.load_settings repr w' = (Returned tt, w') ∧
        App.hour_spinner w' = App.hour_spinner w ∧
        App.minute_spinner w' = App.minute_spinner w ∧
        App.duration_input w' = App.duration_input w.
Proof.
  destruct (cancel_recording_run android e w) as (w' & E & S & H & Mi & D).
  exists w'. split; [done|].
  assert (L : App.store w' !! "recording"%string
              = Some (<["is_scheduled"%string := App.VBool false]> ∅)).
  { rewrite S. apply lookup_insert_eq. }
  split; [done|]. split.
  - intros settings Hs. rewrite L in Hs. injection Hs as <-.
    repeat split; by vm_compute.
  - repeat split; try done.
    unfold App.load_settings. mrun. rewrite L. by vm_compute.
Qed.

(** C6. When the hour, the minute or the duration field does not parse as
    an integer, [schedule_recording] returns normally with the status text
    set to the generic message and nothing else changed: the store, the
    pending alarm, the button and the log are what they were. *)
Theorem schedule_rejects_malformed_input
    (int : string → option Z) (strftime : Datetime.datetime → string)
    (android : bool) (e : App.env) (w : App.world) :
  int (App.hour_spinner w) = None ∨ int (App.minute_spinner w) = None ∨
  int (App.duration_input w) = None →
  ∃ w', App.schedule_recording int strftime android e w = (Returned tt, w') ∧
        w' = App.set_status_label "Error: Please enter valid numbers" w ∧
        App.store w' = App.store w ∧ App.alarm w' = App.alarm w ∧
        App.schedule_btn w' = App.schedule_btn w ∧ App.log w' = App.log w.
Proof.
  intros H. eexists. split; [|by repeat split].
  unfold App.schedule_recording, App.parse. mrun.
  destruct (int (App.hour_spinner w)) as [h|] eqn:Hh; mrun; [|done].
  destruct (int (App.minute_spinner w)) as [m|] eqn:Hm; mrun; [|done].
  destruct (int (App.duration_input w)) as [d|] eqn:Hd; mrun; [|done].
  by destruct H as [?|[?|?]].
Qed.

Lemma schedule_rejects_malformed_input_witness :
  ∃ w', App.schedule_recording App.int_decimal hour_minute true half_past_noon
          blank_duration_app = (Returned tt, w') ∧
        w' = App.set_status_label "Error: Please enter valid numbers" blank_duration_app ∧
        App.store w' = ∅ ∧ App.alarm w' = None ∧
        App.schedule_btn w' = "Schedule Recording"%string ∧ App.log w' = [].
Proof.
  apply (schedule_rejects_malformed_input App.int_decimal hour_minute true
           half_past_noon blank_duration_app).
  right; right; reflexivity.
Defined.

Lemma le_micros (a b : Datetime.datetime) :
  Datetime.valid a → Datetime.valid b →
  Datetime.le a b = (Datetime.micros a <=? Datetime.micros b).
Proof.
  unfold Datetime.valid, Datetime.le, Datetime.micros.
  intros (Ha1 & Ha2 & Ha3 & Ha4) (Hb1 & Hb2 & Hb3 & Hb4).
  symmetry.
  destruct (Z.compare_spec (Datetime.ordinal a) (Datetime.ordinal b));
    [|apply Z.leb_le; lia|apply Z.leb_gt; lia].
  destruct (Z.compare_spec (Datetime.hour a) (Datetime.hour b));
    [|apply Z.leb_le; lia|apply Z.leb_gt; lia].
  destruct (Z.compare_spec (Datetime.minute a) (Datetime.minute b));
    [|apply Z.leb_le; lia|apply Z.leb_gt; lia].
  destruct (Z.compare_spec (Datetime.second a) (Datetime.second b));
    [|apply Z.leb_le; lia|apply Z.leb_gt; lia].
  destruct (Z.leb_spec (Datetime.microsecond a) (Datetime.microsecond b));
    [apply Z.leb_le; lia|apply Z.leb_gt; lia].
Qed.

Lemma replace_in_range (now : Datetime.datetime) (h m : Z) :
  0 <= h < 24 → 0 <= m < 60 →
  Datetime.replace now h m 0 0 = inr (today_at now h m).
Proof.
  intros Hh Hm. unfold Datetime.replace.
  replace (0 <=? h) with true by (symmetry; apply Z.leb_le; lia).
  replace (h <? 24) with true by (symmetry; apply Z.ltb_lt; lia).
  replace (0 <=? m) with true by (symmetry; apply Z.leb_le; lia).
  replace (m <? 60) with true by (symmetry; apply Z.ltb_lt; lia).
  reflexivity.
Qed.

Lemma next_occurrence_spec (now : Datetime.datetime) (h m : Z) :
  Datetime.valid now → 0 <= h < 24 → 0 <= m < 60 →
  ∃ s, App.next_occurrence now h m = inr s ∧
       s = (if Datetime.micros now <? Datetime.micros (today_at now h m)
            then today_at now h m
            else Datetime.add_days (today_at now h m) 1) ∧
       Datetime.micros now < Datetime.micros s <= Datetime.micros now + day_micros.
Proof.
  intros Hn Hh Hm. unfold App.next_occurrence.
  rewrite (replace_in_range now h m Hh Hm).
  assert (Ht : Datetime.valid (today_at now h m)).
  { unfold Datetime.valid, today_at; cbn. lia. }
  rewrite (le_micros _ _ Ht Hn).
  eexists. split; [reflexivity|].
  destruct Hn as (Hn1 & Hn2 & Hn3 & Hn4).
  unfold day_micros.
  destruct (Z.leb_spec (Datetime.micros (today_at now h m)) (Datetime.micros now)) as [L|L].
  - replace (Datetime.micros now <? Datetime.micros (today_at now h m)) with false
      by (symmetry; apply Z.ltb_ge; lia).
    split; [reflexivity|].
    unfold Datetime.micros, Datetime.add_days, today_at in *; cbn in *. lia.
  - replace (Datetime.micros now <? Datetime.micros (today_at now h m)) with true
      by (symmetry; apply Z.ltb_lt; lia).
    split; [reflexivity|].
    unfold Datetime.micros, today_at in *; cbn in *. lia.
Qed.



(** ** The wave writer *)

Lemma tidy_prepared (filepath : string) : tidy (prepared filepath).
Proof. by repeat split. Qed.

Lemma path_prepared (filepath : string) : Wave.ww_path (prepared filepath) = filepath.
Proof. reflexivity. Qed.

Lemma writeframes_tidy (data : list byte) (o : Wave.wave_write) :
  tidy o →
  tidy (Wave.writeframes data o) ∧
  Wave._headerwritten (Wave.writeframes data o) = true ∧
  Wave._datalength (Wave.writeframes data o) = Wave._datawritten (Wave.writeframes data o) ∧
  Wave.ww_data (Wave.writeframes data o) = Wave.ww_data o ++ data ∧
  Wave.ww_path (Wave.writeframes data o) = Wave.ww_path o.
Proof.
  intros (C & S & F & D & H).
  unfold Wave.writeframes, Wave.writeframesraw, Wave._ensure_header_written,
    Wave._patchheader, Wave._write_header, tidy.
  destruct (Wave._headerwritten o) eqn:Hw; cbn;
    repeat match goal with
    | |- context [if ?b then _ else _] => destruct b eqn:?; cbn
    end;
    rewrite ?C, ?S, ?F, ?D in *;
    repeat match goal with
    | E : (_ =? _) = true |- _ => apply Z.eqb_eq in E
    | E : (_ =? _) = false |- _ => apply Z.eqb_neq in E
    end;
    rewrite ?Hw, ?H, ?length_app, ?Nat2Z.inj_add; cbn;
    repeat split; try done; try lia.
Qed.

Lemma fed_tidy (cs : list (list byte)) (o : Wave.wave_write) :
  tidy o →
  tidy (fed cs o) ∧
  Wave.ww_data (fed cs o) = Wave.ww_data o ++ concat cs ∧
  Wave.ww_path (fed cs o) = Wave.ww_path o.
Proof.
  revert o. induction cs as [|c cs IH]; intros o T.
  - cbn. by rewrite app_nil_r.
  - change (fed (c :: cs) o) with (fed cs (Wave.writeframes c o)).
    destruct (writeframes_tidy c o T) as (T' & _ & _ & D' & P').
    destruct (IH _ T') as (T'' & D'' & P'').
    split; [done|]. rewrite D'', D', P'', P'. cbn [concat].
    by rewrite <- app_assoc.
Qed.

Lemma fed_app (cs cs' : list (list byte)) (o : Wave.wave_write) :
  fed (cs ++ cs') o = fed cs' (fed cs o).
Proof. apply fold_left_app. Qed.

(** Closing a tidy writer leaves a file whose header has the lengths of
    its data. *)
Lemma close_tidy (o : Wave.wave_write) :
  tidy o →
  Wave.on_disk (Wave.close o) = recording_of (Wave.ww_data o) ∧
  Wave.ww_path (Wave.close o) = Wave.ww_path o.
Proof.
  intros (C & S & F & D & H).
  unfold Wave.close, Wave._ensure_header_written, Wave._patchheader,
    Wave._write_header, Wave.on_disk, recording_of, pcm_header in *.
  destruct (Wave._headerwritten o) eqn:Hw; cbn;
    repeat match goal with
    | |- context [if ?b then _ else _] => destruct b eqn:?; cbn
    end;
    rewrite ?C, ?S, ?F, ?D in *;
    repeat match goal with
    | E : (_ =? _) = true |- _ => apply Z.eqb_eq in E
    | E : (_ =? _) = false |- _ => apply Z.eqb_neq in E
    end;
    rewrite ?Hw, ?H; cbn; split; try done; repeat f_equal; try lia.
Qed.

(** After every [writeframes] the header on disk already has the lengths
    of the data: the file is a finished recording without a [close]. *)
Lemma writeframes_on_disk (data : list byte) (o : Wave.wave_write) :
  tidy o →
  Wave.on_disk (Wave.writeframes data o) = recording_of (Wave.ww_data o ++ data).
Proof.
  intros T. destruct (writeframes_tidy data o T) as ((C & S & F & D & H) & Hw & L & Da & _).
  unfold Wave.on_disk, recording_of. rewrite H, Hw, L, D, Da. reflexivity.
Qed.


Lemma writeframes_path (data : list byte) (o : Wave.wave_write) :
  Wave.ww_path (Wave.writeframes data o) = Wave.ww_path o.
Proof.
  unfold Wave.writeframes, Wave.writeframesraw, Wave._ensure_header_written,
    Wave._patchheader, Wave._write_header.
  repeat match goal with
  | |- context [if ?b then _ else _] => destruct b; cbn
  end; reflexivity.
Qed.

Lemma close_path (o : Wave.wave_write) :
  Wave.ww_path (Wave.close o) = Wave.ww_path o.
Proof.
  unfold Wave.close, Wave._ensure_header_written, Wave._patchheader,
    Wave._write_header.
  repeat match goal with
  | |- context [if ?b then _ else _] => destruct b; cbn
  end; reflexivity.
Qed.

(** ** The loops of [AudioRecorder] *)

Lemma put_wf_put_wf (o1 o2 : Wave.wave_write) (w : AudioUtils.world) :
  Wave.ww_path o2 = Wave.ww_path o1 →
  AudioUtils.put_wf o2 (AudioUtils.put_wf o1 w) = AudioUtils.put_wf o2 w.
Proof.
  intros P. unfold AudioUtils.put_wf, AudioUtils.set_files; cbn.
  by rewrite P, insert_insert_eq.
Qed.

Lemma pyaudio_loop_course (d : option Q) (start : Q) (ts : list turn) :
  ∀ (o : Wave.wave_write) (w : AudioUtils.world),
    AudioUtils.pyaudio_loop d start ts (AudioUtils.put_wf o w) =
    (loop_outcome (snd (course (AudioUtils.elapsed d start) (AudioUtils.is_recording w) ts)),
     settle (snd (course (AudioUtils.elapsed d start) (AudioUtils.is_recording w) ts))
       (AudioUtils.put_wf
          (fed (fst (course (AudioUtils.elapsed d start) (AudioUtils.is_recording w) ts)) o)
          w)).
Proof.
  induction ts as [|t ts IH]; intros o w; [reflexivity|].
  cbn [AudioUtils.pyaudio_loop course]. unfold AudioUtils.interleave, AudioUtils.wf_call,
    AudioUtils.print.
  destruct (stop_called t); mrun; cbn.
  - by rewrite andb_false_r.
  - rewrite andb_true_r.
    destruct (AudioUtils.is_recording w) eqn:R; cbn.
    + destruct (AudioUtils.elapsed d start (now t)); cbn; [done|].
      destruct (read t) as [err|data]; cbn; [done|].
      rewrite put_wf_put_wf by apply writeframes_path.
      rewrite IH, R. reflexivity.
    + f_equal. destruct w; cbn in *. by subst.
Qed.

Lemma record_with_pyaudio_run (e : AudioUtils.env) (filepath : string)
    (d : option Q) (w : AudioUtils.world) :
  AudioUtils.open_input e = None → AudioUtils.open_output e = None →
  ∃ w', AudioUtils._record_with_pyaudio e filepath d w
        = (loop_outcome (snd (course (AudioUtils.elapsed d (AudioUtils.start_time e))
                                (AudioUtils.is_recording w) (AudioUtils.turns e))), w') ∧
        AudioUtils.threads w' = AudioUtils.threads w ∧
        AudioUtils.plyer_file_path w' = AudioUtils.plyer_file_path w ∧
        if decide (snd (course (AudioUtils.elapsed d (AudioUtils.start_time e))
                          (AudioUtils.is_recording w) (AudioUtils.turns e)) = Unfinished)
        then w' = AudioUtils.put_wf
                    (fed (fst (course (AudioUtils.elapsed d (AudioUtils.start_time e))
                                 (AudioUtils.is_recording w) (AudioUtils.turns e)))
                       (prepared filepath)) w
        else AudioUtils.is_recording w' = false ∧ AudioUtils.wf w' = None ∧
             AudioUtils.fs w' =
               <[filepath := recording_of
                   (concat (fst (course (AudioUtils.elapsed d (AudioUtils.start_time e))
                                   (AudioUtils.is_recording w) (AudioUtils.turns e))))]>
                 (AudioUtils.fs w).
Proof.
  intros Hi Ho.
  unfold AudioUtils._record_with_pyaudio, AudioUtils.with_wave_open,
    AudioUtils.wave_open, AudioUtils.wave_close, AudioUtils.wf_call, AudioUtils.print.
  rewrite Hi, Ho. mrun. cbn [AudioUtils.wf AudioUtils.put_wf AudioUtils.set_files].
  rewrite !put_wf_put_wf by reflexivity.
  change (Wave.setframerate _ _) with (prepared filepath).
  rewrite pyaudio_loop_course.
  destruct (course _ _ _) as [cs en]. cbn [fst snd].
  destruct (fed_tidy cs (prepared filepath) (tidy_prepared filepath)) as (T & D & P).
  destruct (close_tidy _ T) as (C & CP).
  assert (F : <[Wave.ww_path (Wave.close (fed cs (prepared filepath))) :=
                 Wave.on_disk (Wave.close (fed cs (prepared filepath)))]>
               (<[Wave.ww_path (fed cs (prepared filepath)) :=
                    Wave.on_disk (fed cs (prepared filepath))]> (AudioUtils.fs w))
              = <[filepath := recording_of (concat cs)]> (AudioUtils.fs w)).
  { rewrite CP, P, insert_insert_eq, C, D. reflexivity. }
  destruct en; cbn; try (destruct (AudioUtils.close_input e); cbn);
    (eexists; split; [reflexivity|]); cbn; rewrite ?F; done.
Qed.


(** ** The loop of [RecordingService] *)

Lemma put_wave_file_twice (o1 o2 : Wave.wave_write) (w : Service.world) :
  Wave.ww_path o2 = Wave.ww_path o1 →
  Service.put_wave_file o2 (Service.put_wave_file o1 w) = Service.put_wave_file o2 w.
Proof.
  intros P. unfold Service.put_wave_file, Service.set_files; cbn.
  by rewrite P, insert_insert_eq.
Qed.

Lemma record_loop_course (D : Z) (start : Q) (ts : list turn) :
  ∀ (o : Wave.wave_write) (w : Service.world),
    Service.record_loop D start ts (Service.put_wave_file o w) =
    (loop_outcome (snd (course (service_over D start) (Service.is_recording w) ts)),
     service_settle (snd (course (service_over D start) (Service.is_recording w) ts))
       (Service.put_wave_file
          (fed (fst (course (service_over D start) (Service.is_recording w) ts)) o)
          w)).
Proof.
  induction ts as [|t ts IH]; intros o w; [reflexivity|].
  cbn [Service.record_loop course].
  unfold Service.interleave, Service.wave_call, Service.Logger, service_over in *.
  destruct (stop_called t); mrun; cbn.
  - by rewrite andb_false_r.
  - rewrite andb_true_r.
    destruct (Service.is_recording w) eqn:R; cbn.
    + destruct (Qle_bool (inject_Z D) (now t - start)); cbn; [done|].
      destruct (read t) as [err|data]; cbn; [done|].
      rewrite put_wave_file_twice by apply writeframes_path.
      rewrite IH, R. reflexivity.
    + f_equal. destruct w; cbn in *. by subst.
Qed.

Lemma record_audio_run (android : bool) (e : Service.env) (filepath : string)
    (D : Z) (w : Service.world) :
  Service.open_input e = None → Service.open_output e = None →
  ∃ w', Service._record_audio true android e filepath D w
        = (loop_outcome (snd (course (service_over D (Service.start_time e))
                                (Service.is_recording w) (Service.turns e))), w') ∧
        Service.threads w' = Service.threads w ∧
        if decide (snd (course (service_over D (Service.start_time e))
                          (Service.is_recording w) (Service.turns e)) = Unfinished)
        then Service.wave_file w' =
               Some (fed (fst (course (service_over D (Service.start_time e))
                                 (Service.is_recording w) (Service.turns e)))
                       (prepared filepath)) ∧
             Service.is_recording w' = Service.is_recording w
        else Service.is_recording w' = false ∧ Service.wave_file w' = None ∧
             Service.fs w' =
               <[filepath := recording_of
                   (concat (fst (course (service_over D (Service.start_time e))
                                   (Service.is_recording w) (Service.turns e))))]>
                 (Service.fs w).
Proof.
  intros Hi Ho.
  unfold Service._record_audio, Service.wave_call, Service.Logger,
    Service.show_notification.
  cbn [negb]. rewrite Hi, Ho. mrun.
  cbn [Service.wave_file Service.put_wave_file Service.set_files].
  rewrite !put_wave_file_twice by reflexivity.
  change (Wave.setframerate _ _) with (prepared filepath).
  change (Service.add_log ?m (Service.put_wave_file ?o ?w0))
    with (Service.put_wave_file o (Service.add_log m w0)).
  rewrite record_loop_course.
  change (Service.is_recording (Service.add_log _ (Service.set_audio_stream true w)))
    with (Service.is_recording w).
  destruct (course _ _ _) as [cs en]. cbn [fst snd].
  destruct (fed_tidy cs (prepared filepath) (tidy_prepared filepath)) as (T & Da & P).
  destruct (close_tidy _ T) as (C & CP).
  assert (F : <[Wave.ww_path (Wave.close (fed cs (prepared filepath))) :=
                 Wave.on_disk (Wave.close (fed cs (prepared filepath)))]>
               (<[Wave.ww_path (fed cs (prepared filepath)) :=
                    Wave.on_disk (fed cs (prepared filepath))]> (Service.fs w))
              = <[filepath := recording_of (concat cs)]> (Service.fs w)).
  { rewrite CP, P, insert_insert_eq, C, Da. reflexivity. }
  destruct en; cbn;
    [| | |by eexists];
    destruct (Service.close_input e); cbn;
    try (destruct (Service.is_recording w) eqn:R; cbn);
    try (destruct android; cbn);
    (eexists; split; [reflexivity|]); cbn; rewrite ?F; done.
Qed.

(** ** A read that fails *)





(** ** The duration *)










(** ** The duration zero *)









(** ** The fallback tone *)

Lemma tone_loop_run (tone : Z → Z → Z → Z) :
  (∀ i, -32768 <= tone 440 i 44100 <= 32767) →
  ∀ (indices : list nat) (o : Wave.wave_write) (w : AudioUtils.world),
    AudioUtils.tone_loop tone indices (AudioUtils.put_wf o w) =
    (Returned tt,
     AudioUtils.put_wf
       (fed (map (λ i, le16 (tone 440 (Z.of_nat i) 44100)) indices) o) w).
Proof.
  intros Hr. induction indices as [|i rest IH]; intros o w; [reflexivity|].
  cbn [AudioUtils.tone_loop map]. unfold pack_h, AudioUtils.sample_rate.
  replace (-32768 <=? tone 440 (Z.of_nat i) 44100) with true
    by (symmetry; apply Z.leb_le, Hr).
  replace (tone 440 (Z.of_nat i) 44100 <=? 32767) with true
    by (symmetry; apply Z.leb_le, Hr).
  cbn [andb]. unfold AudioUtils.wf_call. mrun.
  cbn [AudioUtils.wf AudioUtils.put_wf AudioUtils.set_files].
  rewrite put_wf_put_wf by apply writeframes_path.
  apply IH.
Qed.

Lemma tone_data_frames (tone : Z → Z → Z → Z) :
  frames (recording_of (tone_data tone)) = 44100.
Proof.
  assert (L : ∀ l : list nat,
            length (concat (map (λ i, le16 (tone 440 (Z.of_nat i) 44100)) l))
            = (2 * length l)%nat).
  { induction l as [|i l IH]; [done|].
    cbn [map concat]. rewrite length_app, IH. cbn [le16 length]. lia. }
  unfold frames, recording_of, tone_data, tone_blocks.
  rewrite L, length_seq.
  replace (Z.of_nat (2 * Z.to_nat 44100)) with (44100 * 2) by lia.
  apply Z.div_mul. lia.
Qed.

Lemma create_dummy_recording_run (tone : Z → Z → Z → Z) (e : AudioUtils.env)
    (filepath : string) (w : AudioUtils.world) :
  (∀ i, -32768 <= tone 440 i 44100 <= 32767) →
  AudioUtils.open_output e = None →
  ∃ w', AudioUtils._create_dummy_recording tone e filepath w = (Returned tt, w') ∧
        AudioUtils.is_recording w' = false ∧
        AudioUtils.fs w' = <[filepath := recording_of (tone_data tone)]> (AudioUtils.fs w) ∧
        AudioUtils.threads w' = AudioUtils.threads w.
Proof.
  intros Hr Ho.
  unfold AudioUtils._create_dummy_recording, AudioUtils.with_wave_open,
    AudioUtils.wave_open, AudioUtils.wave_close, AudioUtils.wf_call, AudioUtils.print.
  rewrite Ho. cbv zeta. mrun.
  cbn [AudioUtils.wf AudioUtils.put_wf AudioUtils.set_files].
  rewrite !put_wf_put_wf by reflexivity.
  change (Wave.setframerate _ _) with (prepared filepath).
  change (int_of_Q (1 * inject_Z AudioUtils.sample_rate)) with 44100.
  rewrite (tone_loop_run tone Hr). fold (tone_blocks tone).
  destruct (fed_tidy (tone_blocks tone) (prepared filepath) (tidy_prepared filepath))
    as (T & D & P).
  destruct (close_tidy _ T) as (C & CP).
  eexists. split; [reflexivity|].
  cbn [AudioUtils.is_recording AudioUtils.set_is_recording AudioUtils.fs
       AudioUtils.threads AudioUtils.write_stdout AudioUtils.set_files
       AudioUtils.put_wf AudioUtils.wf].
  repeat split.
  rewrite CP, P, insert_insert_eq, C, D. reflexivity.
Qed.

(** C3. With no audio library every start and stop leaves, under the
    requested path, a finished recording that holds one second (44100
    frames at 44100 Hz) of the 440 Hz tone: the same file whatever
    duration was asked for and whenever the stop comes in. *)
Theorem fallback_writes_fixed_tone
    (tone : Z → Z → Z → Z) (e e2 : AudioUtils.env) (filepath : string)
    (d d2 : option Q) (w : AudioUtils.world) :
  (∀ i, -32768 <= tone 440 i 44100 <= 32767) →
  AudioUtils.is_recording w = false →
  AudioUtils.open_output e = None → AudioUtils.open_output e2 = None →
  ∃ w' w2,
    start_then_stop None tone e filepath d w = (Returned true, w') ∧
    AudioUtils.is_recording w' = false ∧
    AudioUtils.fs w' !! filepath = Some (recording_of (tone_data tone)) ∧
    is_recording_file (recording_of (tone_data tone)) = true ∧
    frames (recording_of (tone_data tone)) = 44100 ∧
    start_then_stop None tone e2 filepath d2 w = (Returned true, w2) ∧
    AudioUtils.fs w2 = AudioUtils.fs w'.
Proof.
  intros Hr R Ho Ho2.
  assert (S : ∀ e d, AudioUtils.open_output e = None →
            ∃ w', start_then_stop None tone e filepath d w = (Returned true, w') ∧
                  AudioUtils.is_recording w' = false ∧
                  AudioUtils.fs w' = <[filepath := recording_of (tone_data tone)]>
                                       (AudioUtils.fs w)).
  { intros e' d' Ho'.
    unfold start_then_stop, AudioUtils.start_recording, AudioUtils.stop_recording.
    mrun. rewrite R. mrun. cbn [AudioUtils._record_worker].
    destruct (create_dummy_recording_run tone e' filepath
                (AudioUtils.start_thread filepath d'
                   (AudioUtils.set_audio_data []
                      (AudioUtils.set_is_recording true w))) Hr Ho')
      as (w' & E & F & G & _).
    rewrite E. eexists. split; [reflexivity|]. split; [reflexivity|]. exact G. }
  destruct (S e d Ho) as (w' & E & F & G).
  destruct (S e2 d2 Ho2) as (w2 & E2 & _ & G2).
  exists w', w2.
  split; [exact E|]. split; [exact F|].
  split; [rewrite G; apply lookup_insert_eq|].
  split; [unfold is_recording_file, recording_of; by apply bool_decide_eq_true|].
  split; [apply tone_data_frames|].
  split; [exact E2|]. by rewrite G, G2.
Qed.

Lemma fallback_writes_fixed_tone_witness :
  ∃ w' w2,
    start_then_stop None square_wave recorder_env_stopped "rec.wav" (Some 60%Q) fresh_recorder
      = (Returned true, w') ∧
    AudioUtils.is_recording w' = false ∧
    AudioUtils.fs w' !! "rec.wav"%string = Some (recording_of (tone_data square_wave)) ∧
    is_recording_file (recording_of (tone_data square_wave)) = true ∧
    frames (recording_of (tone_data square_wave)) = 44100 ∧
    start_then_stop None square_wave recorder_env_steady "rec.wav" None fresh_recorder
      = (Returned true, w2) ∧
    AudioUtils.fs w2 = AudioUtils.fs w'.
Proof.
  apply (fallback_writes_fixed_tone square_wave recorder_env_stopped recorder_env_steady
           "rec.wav" (Some 60%Q) None fresh_recorder); try reflexivity.
  intros i. unfold square_wave. destruct (_ <? _); lia.
Defined.

(** ** Exceptions and the flag *)

(** A body under [except Exception] and [finally: flag = False] raises
    nothing, and has cleared the flag when it returns. *)
Lemma guarded_clears_flag {S : Type} (flag : S → bool) (clear : S → S)
    (body : M S unit) (handler : exn → M S unit) (s : S) :
  (∀ s0, flag (clear s0) = false) →
  (∀ x s0 x', fst (handler x s0) ≠ Raised x') →
  match try_finally (try_except body Exception handler) (modify clear) s with
  | (Raised _, _) => False
  | (Returned _, s') => flag s' = false
  | (Running, _) => True
  end.
Proof.
  intros Hc Hh. unfold try_finally, try_except, modify, Exception.
  destruct (body s) as [[[]|x|] s1]; cbn; [apply Hc| |done].
  specialize (Hh x s1). destruct (handler x s1) as [[[]|x'|] s2]; cbn in *;
    [apply Hc| |done].
  by apply (Hh x').
Qed.

Lemma print_returns (msg : string) (w : AudioUtils.world) (x : exn) :
  fst (AudioUtils.print msg w) ≠ Raised x.
Proof. done. Qed.

Lemma create_dummy_recording_guarded (tone : Z → Z → Z → Z) (e : AudioUtils.env)
    (filepath : string) (w : AudioUtils.world) :
  match AudioUtils._create_dummy_recording tone e filepath w with
  | (Raised _, _) => False
  | (Returned _, w') => AudioUtils.is_recording w' = false
  | (Running, _) => True
  end.
Proof.
  apply (guarded_clears_flag AudioUtils.is_recording); [done|].
  intros x s0 x'. apply print_returns.
Qed.

(** Every worker of [AudioRecorder] keeps what its backend raises, and
    has cleared the flag when it ends, whatever the environment does. *)
Lemma recorder_worker_guarded (lib : option AudioUtils.lib) (tone : Z → Z → Z → Z)
    (e : AudioUtils.env) (filepath : string) (d : option Q) (w : AudioUtils.world) :
  match AudioUtils._record_worker lib tone e filepath d w with
  | (Raised _, _) => False
  | (Returned _, w') => AudioUtils.is_recording w' = false
  | (Running, _) => True
  end.
Proof.
  destruct lib as [[| |]|]; cbn [AudioUtils._record_worker].
  - apply (guarded_clears_flag AudioUtils.is_recording); [done|].
    intros x s0 x'. apply print_returns.
  - apply (guarded_clears_flag AudioUtils.is_recording); [done|].
    intros x s0 x'. apply print_returns.
  - apply (guarded_clears_flag AudioUtils.is_recording); [done|].
    intros x s0 x'. unfold mbind, M_bind, AudioUtils.print, modify. cbn beta iota.
    pose proof (create_dummy_recording_guarded tone e filepath
                  (AudioUtils.write_stdout "Plyer recording error" s0)) as G.
    destruct (AudioUtils._create_dummy_recording _ _ _ _) as [[[]|?|] ?]; cbn; done.
  - apply create_dummy_recording_guarded.
Qed.

(** So does the worker of [RecordingService] when PyAudio is there. *)
Lemma service_worker_guarded (android : bool) (e : Service.env) (filepath : string)
    (D : Z) (w : Service.world) :
  match Service._record_audio true android e filepath D w with
  | (Raised _, _) => False
  | (Returned _, w') => Service.is_recording w' = false
  | (Running, _) => True
  end.
Proof.
  unfold Service._record_audio. cbn [negb].
  apply (guarded_clears_flag Service.is_recording); [done|].
  intros x s0 x'. done.
Qed.

(** C4 fails in the worker of [RecordingService] when PyAudio could not be
    imported: the worker returns before its [try], so the flag that
    [start_recording] has set is still set when the worker has ended, and
    the next [start_recording] is turned away although nothing records. *)
Theorem service_worker_without_pyaudio_keeps_flag
    (android : bool) (e : Service.env) (se : Service.start_env)
    (filepath : string) (D minutes : Z) (w : Service.world) :
  Service._record_audio false android e filepath D (Service.set_is_recording true w)
    = (Returned tt,
       Service.add_log "PyAudio not available" (Service.set_is_recording true w)) ∧
  Service.is_recording
    (snd (Service._record_audio false android e filepath D
            (Service.set_is_recording true w))) = true ∧
  Service.start_recording android se minutes
    (snd (Service._record_audio false android e filepath D
            (Service.set_is_recording true w)))
    = (Returned tt,
       Service.add_log "Recording already in progress"
         (Service.add_log "PyAudio not available" (Service.set_is_recording true w))).
Proof. done. Qed.

(** ** The file each backend leaves *)

Lemma wait_loop_frame (d : option Q) (start : Q) (ts : list turn) :
  ∀ w : AudioUtils.world,
    ∃ o b, AudioUtils.wait_loop d start ts w = (o, AudioUtils.set_is_recording b w) ∧
           (o = Returned tt ∨ o = Running).
Proof.
  induction ts as [|t ts IH]; intros w.
  - exists Running, (AudioUtils.is_recording w). cbn. split; [by destruct w|by right].
  - cbn [AudioUtils.wait_loop]. unfold AudioUtils.interleave. mrun.
    destruct (stop_called t); mrun;
      cbn [AudioUtils.is_recording AudioUtils.set_is_recording negb].
    + exists (Returned tt), false. by split; [|left].
    + destruct (AudioUtils.is_recording w) eqn:R; cbn [negb].
      * destruct (AudioUtils.elapsed d start (now t)); [|apply IH].
        exists (Returned tt), true. split; [|by left]. rewrite <- R. by destruct w.
      * exists (Returned tt), false. split; [|by left]. rewrite <- R. by destruct w.
Qed.

(** A PyAudio recording that has ended is a finished recording under the
    requested path. *)
Lemma pyaudio_leaves_recording (e : AudioUtils.env) (filepath : string)
    (d : option Q) (w : AudioUtils.world) :
  AudioUtils.open_input e = None → AudioUtils.open_output e = None →
  fst (AudioUtils._record_with_pyaudio e filepath d w) = Returned tt →
  ∃ data, AudioUtils.fs (snd (AudioUtils._record_with_pyaudio e filepath d w)) !! filepath
          = Some (recording_of data).
Proof.
  intros Hi Ho. destruct (record_with_pyaudio_run e filepath d w Hi Ho) as (w' & E & _ & _ & F).
  rewrite E. cbn [fst snd]. intros R.
  destruct (decide _) as [U|_]; [rewrite U in R; done|].
  destruct F as (_ & _ & F). eexists. rewrite F. apply lookup_insert_eq.
Qed.

(** So is a sounddevice recording when the path ends in [.wav]. *)
Lemma sounddevice_leaves_recording (e : AudioUtils.env) (filepath : string)
    (d : option Q) (w : AudioUtils.world) :
  AudioUtils.open_input e = None → AudioUtils.open_output e = None →
  AudioUtils.close_input e = None → extension filepath = "WAV"%string →
  fst (AudioUtils._record_with_sounddevice e filepath d w) = Returned tt →
  ∃ data, AudioUtils.fs (snd (AudioUtils._record_with_sounddevice e filepath d w)) !! filepath
          = Some (recording_of data).
Proof.
  intros Hi Ho Hc Hx.
  unfold AudioUtils._record_with_sounddevice, AudioUtils.sf_write. cbv zeta.
  rewrite Hi, Hc, Ho, Hx. mrun.
  destruct (wait_loop_frame d (AudioUtils.start_time e) (AudioUtils.turns e) w)
    as (o & b & -> & [-> | ->]); cbn [fst snd]; [|done].
  intros _. eexists.
  cbn [AudioUtils.fs AudioUtils.set_files AudioUtils.set_is_recording String.eqb
       Ascii.eqb Bool.eqb].
  rewrite lookup_insert_eq. reflexivity.
Qed.

(** A plyer recording that has ended is under the path the facade had
    when the recording started, in the platform's encoding; the requested
    path is given to the facade afterwards and no file is written there. *)
Lemma plyer_leaves_facade_path (e : AudioUtils.env) (filepath : string)
    (d : option Q) (w : AudioUtils.world) :
  AudioUtils.open_input e = None → AudioUtils.close_input e = None →
  fst (AudioUtils._record_with_plyer (λ _ _ _, 0) e filepath d w) = Returned tt →
  AudioUtils.fs (snd (AudioUtils._record_with_plyer (λ _ _ _, 0) e filepath d w))
    = <[AudioUtils.plyer_file_path w := PlatformFile (AudioUtils.encoded e)]> (AudioUtils.fs w) ∧
  AudioUtils.plyer_file_path (snd (AudioUtils._record_with_plyer (λ _ _ _, 0) e filepath d w))
    = filepath.
Proof.
  intros Hi Hc.
  unfold AudioUtils._record_with_plyer, AudioUtils.plyer_start, AudioUtils.plyer_stop.
  rewrite Hi, Hc. mrun.
  destruct (wait_loop_frame d (AudioUtils.start_time e) (AudioUtils.turns e)
              (AudioUtils.set_files
                 (<[AudioUtils.plyer_file_path w:=PlatformFile []]> (AudioUtils.fs w))
                 (AudioUtils.wf w) w)) as (o & b & -> & [-> | ->]); cbn [fst snd]; [|done].
  intros _. cbn. by rewrite insert_insert_eq.
Qed.

(** C7 fails for plyer.  A recording through plyer that runs and is
    stopped without any error leaves no file under the requested path:
    the platform's file is under the facade's earlier path, and is not a
    recording in the sense of the other backends.  The next recording
    goes to the path requested for the first one. *)
Theorem plyer_recording_misses_requested_path :
  fst (AudioUtils._record_worker (Some AudioUtils.plyer) square_wave recorder_env_stopped
         "/sdcard/VoiceRecordings/rec1.wav" None plyer_recorder) = Returned tt ∧
  AudioUtils.fs (snd (AudioUtils._record_worker (Some AudioUtils.plyer) square_wave
                        recorder_env_stopped "/sdcard/VoiceRecordings/rec1.wav" None
                        plyer_recorder))
    !! "/sdcard/VoiceRecordings/rec1.wav"%string = None ∧
  AudioUtils.fs (snd (AudioUtils._record_worker (Some AudioUtils.plyer) square_wave
                        recorder_env_stopped "/sdcard/VoiceRecordings/rec1.wav" None
                        plyer_recorder))
    !! "/sdcard/testrecorder.3gp"%string = Some (PlatformFile [xff; xfe]) ∧
  (∀ second : AudioUtils.world,
     second = AudioUtils.set_is_recording true
                (snd (AudioUtils._record_worker (Some AudioUtils.plyer) square_wave
                        recorder_env_stopped "/sdcard/VoiceRecordings/rec1.wav" None
                        plyer_recorder)) →
     AudioUtils.fs (snd (AudioUtils._record_worker (Some AudioUtils.plyer) square_wave
                           recorder_env_stopped "/sdcard/VoiceRecordings/rec2.wav" None
                           second))
       !! "/sdcard/VoiceRecordings/rec2.wav"%string = None ∧
     (if AudioUtils.fs (snd (AudioUtils._record_worker (Some AudioUtils.plyer) square_wave
                           recorder_env_stopped "/sdcard/VoiceRecordings/rec2.wav" None
                           second))
           !! "/sdcard/VoiceRecordings/rec1.wav"%string is Some f
      then is_recording_file f = false else False)).
Proof.
  split; [by vm_compute|]. split; [by vm_compute|]. split; [by vm_compute|].
  intros second ->. split; by vm_compute.
Qed.

(* ===================================================================== *)
(** * Further properties of [AudioRecorder] *)
(* ===================================================================== *)




Lemma pyaudio_leaves_recording_witness :
  ∃ data,
    AudioUtils.fs (snd (AudioUtils._record_with_pyaudio recorder_env_close_fails "rec.wav"
                          (Some 60%Q) busy_recorder)) !! "rec.wav"%string
    = Some (recording_of data).
Proof.
  apply (pyaudio_leaves_recording recorder_env_close_fails "rec.wav" (Some 60%Q)
           busy_recorder); reflexivity.
Defined.

Lemma sounddevice_leaves_recording_witness :
  ∃ data,
    AudioUtils.fs (snd (AudioUtils._record_with_sounddevice recorder_env_stopped
                          "/home/u/VoiceRecordings/rec.wav" (Some (1 # 100))
                          busy_recorder)) !! "/home/u/VoiceRecordings/rec.wav"%string
    = Some (recording_of data).
Proof.
  apply (sounddevice_leaves_recording recorder_env_stopped
           "/home/u/VoiceRecordings/rec.wav" (Some (1 # 100)) busy_recorder);
    reflexivity.
Defined.

(** X3. When the input cannot be opened, the PyAudio and the sounddevice
    worker print the error, clear the flag and write no file: the files
    are what they were. *)
Theorem failed_input_writes_no_file
    (tone : Z → Z → Z → Z) (e : AudioUtils.env) (filepath : string) (d : option Q)
    (w : AudioUtils.world) (x : exn) :
  AudioUtils.open_input e = Some x →
  AudioUtils._record_worker (Some AudioUtils.pyaudio) tone e filepath d w
    = (Returned tt,
       AudioUtils.set_is_recording false
         (AudioUtils.write_stdout "PyAudio recording error" w)) ∧
  AudioUtils._record_worker (Some AudioUtils.sounddevice) tone e filepath d w
    = (Returned tt,
       AudioUtils.set_is_recording false
         (AudioUtils.write_stdout "SoundDevice recording error" w)) ∧
  AudioUtils.fs (snd (AudioUtils._record_worker (Some AudioUtils.pyaudio) tone e filepath d w))
    = AudioUtils.fs w ∧
  AudioUtils.fs (snd (AudioUtils._record_worker (Some AudioUtils.sounddevice) tone e filepath d w))
    = AudioUtils.fs w.
Proof.
  intros Hi. cbn [AudioUtils._record_worker].
  unfold AudioUtils._record_with_pyaudio, AudioUtils._record_with_sounddevice,
    AudioUtils.print.
  cbv zeta. rewrite Hi. mrun. done.
Qed.

Lemma failed_input_writes_no_file_witness :
  AudioUtils._record_worker (Some AudioUtils.pyaudio) square_wave recorder_env_no_input
      "rec.wav" None busy_recorder
    = (Returned tt,
       AudioUtils.set_is_recording false
         (AudioUtils.write_stdout "PyAudio recording error" busy_recorder)) ∧
  AudioUtils._record_worker (Some AudioUtils.sounddevice) square_wave recorder_env_no_input
      "rec.wav" None busy_recorder
    = (Returned tt,
       AudioUtils.set_is_recording false
         (AudioUtils.write_stdout "SoundDevice recording error" busy_recorder)) ∧
  AudioUtils.fs (snd (AudioUtils._record_worker (Some AudioUtils.pyaudio) square_wave
                        recorder_env_no_input "rec.wav" None busy_recorder))
    = AudioUtils.fs busy_recorder ∧
  AudioUtils.fs (snd (AudioUtils._record_worker (Some AudioUtils.sounddevice) square_wave
                        recorder_env_no_input "rec.wav" None busy_recorder))
    = AudioUtils.fs busy_recorder.
Proof.
  apply (failed_input_writes_no_file square_wave recorder_env_no_input "rec.wav" None
           busy_recorder BackendError).
  reflexivity.
Defined.

(** X4. When plyer cannot start (its [start] raises), the plyer worker
    falls back to the tone: it prints the error and leaves the
    one-second tone under the requested path, with the flag cleared. *)
Theorem plyer_failure_falls_back_to_tone
    (tone : Z → Z → Z → Z) (e : AudioUtils.env) (filepath : string) (d : option Q)
    (w : AudioUtils.world) (x : exn) :
  (∀ i, -32768 <= tone 440 i 44100 <= 32767) →
  AudioUtils.open_input e = Some x → AudioUtils.open_output e = None →
  ∃ w', AudioUtils._record_worker (Some AudioUtils.plyer) tone e filepath d w
          = (Returned tt, w') ∧
        AudioUtils.is_recording w' = false ∧
        AudioUtils.fs w' = <[filepath := recording_of (tone_data tone)]> (AudioUtils.fs w) ∧
        AudioUtils.stdout w' = AudioUtils.stdout w ++
          ["Plyer recording error"%string; ("Created dummy recording: " +:+ filepath)%string].
Proof.
  intros Hr Hi Ho. cbn [AudioUtils._record_worker].
  unfold AudioUtils._record_with_plyer, AudioUtils.plyer_start, AudioUtils.print.
  rewrite Hi. mrun.
  unfold AudioUtils._create_dummy_recording, AudioUtils.with_wave_open,
    AudioUtils.wave_open, AudioUtils.wave_close, AudioUtils.wf_call, AudioUtils.print.
  rewrite Ho. cbv zeta. mrun.
  cbn [AudioUtils.wf AudioUtils.put_wf AudioUtils.set_files].
  rewrite !put_wf_put_wf by reflexivity.
  change (Wave.setframerate _ _) with (prepared filepath).
  change (int_of_Q (1 * inject_Z AudioUtils.sample_rate)) with 44100.
  rewrite (tone_loop_run tone Hr). fold (tone_blocks tone).
  destruct (fed_tidy (tone_blocks tone) (prepared filepath) (tidy_prepared filepath))
    as (T & D & P).
  destruct (close_tidy _ T) as (C & CP).
  eexists. split; [reflexivity|].
  cbn [AudioUtils.is_recording AudioUtils.set_is_recording AudioUtils.fs
       AudioUtils.threads AudioUtils.write_stdout AudioUtils.set_files
       AudioUtils.put_wf AudioUtils.wf AudioUtils.stdout].
  split; [done|]. split; [|by rewrite <- app_assoc].
  rewrite CP, P, insert_insert_eq, C, D. reflexivity.
Qed.

Lemma plyer_failure_falls_back_to_tone_witness :
  ∃ w', AudioUtils._record_worker (Some AudioUtils.plyer) square_wave recorder_env_no_input
          "rec.wav" (Some 60%Q) plyer_recorder = (Returned tt, w') ∧
        AudioUtils.is_recording w' = false ∧
        AudioUtils.fs w' = <["rec.wav"%string := recording_of (tone_data square_wave)]>
                             (AudioUtils.fs plyer_recorder) ∧
        AudioUtils.stdout w' = AudioUtils.stdout plyer_recorder ++
          ["Plyer recording error"%string; ("Created dummy recording: " +:+ "rec.wav")%string].
Proof.
  apply (plyer_failure_falls_back_to_tone square_wave recorder_env_no_input "rec.wav"
           (Some 60%Q) plyer_recorder BackendError); try reflexivity.
  intros i. unfold square_wave. destruct (_ <? _); lia.
Defined.

(** X5. A recorder whose worker has ended by itself takes the next start
    without a stop in between. *)
Theorem recorder_restarts_after_worker_ends
    (lib : option AudioUtils.lib) (tone : Z → Z → Z → Z) (e : AudioUtils.env)
    (filepath filepath2 : string) (d d2 : option Q) (w w1 : AudioUtils.world) :
  AudioUtils._record_worker lib tone e filepath d w = (Returned tt, w1) →
  ∃ w2, AudioUtils.start_recording filepath2 d2 w1 = (Returned true, w2) ∧
        AudioUtils.is_recording w2 = true ∧
        AudioUtils.threads w2 = AudioUtils.threads w1 ++ [(filepath2, d2)].
Proof.
  intros E. pose proof (recorder_worker_guarded lib tone e filepath d w) as G.
  rewrite E in G.
  destruct (recorder_start_idle filepath2 d2 w1 G) as (w2 & E2 & F & T & _).
  by exists w2.
Qed.

Lemma recorder_restarts_after_worker_ends_witness :
  ∃ w2, AudioUtils.start_recording "second.wav" None
          (AudioUtils.set_is_recording false
             (AudioUtils.write_stdout "PyAudio recording error" busy_recorder))
        = (Returned true, w2) ∧
        AudioUtils.is_recording w2 = true ∧
        AudioUtils.threads w2 =
          AudioUtils.threads (AudioUtils.set_is_recording false
             (AudioUtils.write_stdout "PyAudio recording error" busy_recorder))
          ++ [("second.wav"%string, None)].
Proof.
  apply (recorder_restarts_after_worker_ends (Some AudioUtils.pyaudio) square_wave
           recorder_env_no_input "rec.wav" "second.wav" None None busy_recorder).
  reflexivity.
Defined.





(* ===================================================================== *)
(** * Further properties of [RecordingService] *)
(* ===================================================================== *)







(** X10. [start_recording] of the service raises nothing, and the flag is set
    afterwards exactly when every preparation went through; a start that
    fails before the thread is made starts no worker. *)
Theorem service_start_sets_flag_iff_prepared
    (e : Service.start_env) (android : bool) (minutes : Z) (s : Service.world) :
  Service.is_recording s = false →
  ∃ s', Service.start_recording android e minutes s = (Returned tt, s') ∧
        Service.is_recording s' = start_goes_through e s ∧
        (Service.thread_start e = None → start_goes_through e s = false →
         Service.threads s' = Service.threads s).
Proof.
  intros R. destruct s as [r t a wfile l n ti th f lg]. cbn in R. subst.
  destruct e as [acq stamp dir thr].
  unfold Service.start_recording, Service.stop_recording, Service.show_notification,
    Service.hide_notification, Service.wave_call, Service.Logger, start_goes_through.
  mrun. cbn.
  destruct l as [held|], acq, dir, thr, android; mrun; cbn; mrun; cbn;
    try (destruct a; mrun; cbn); try (destruct wfile; mrun; cbn);
    try (destruct held; mrun; cbn);
    (eexists; split; [reflexivity|]); by cbn.
Qed.

Lemma service_start_sets_flag_iff_prepared_witness :
  ∃ s', Service.start_recording true start_without_directory 5 service_with_lock
          = (Returned tt, s') ∧
        Service.is_recording s' = start_goes_through start_without_directory service_with_lock ∧
        (Service.thread_start start_without_directory = None →
         start_goes_through start_without_directory service_with_lock = false →
         Service.threads s' = Service.threads service_with_lock).
Proof.
  apply (service_start_sets_flag_iff_prepared start_without_directory true 5
           service_with_lock).
  reflexivity.
Defined.

Lemma record_loop_keeps_wake_lock (D : Z) (start : Q) (ts : list turn) :
  ∀ w, Service.wake_lock (snd (Service.record_loop D start ts w)) = Service.wake_lock w.
Proof.
  induction ts as [|t ts IH]; intros w; [done|].
  cbn [Service.record_loop]. unfold Service.interleave, Service.wave_call, Service.Logger.
  destruct (stop_called t); mrun; cbn [Service.is_recording Service.set_is_recording andb];
    [done|].
  destruct (Service.is_recording w && _); [|done].
  destruct (read t); [done|]. mrun. rewrite IH. by destruct (Service.wave_file w).
Qed.

Lemma record_audio_keeps_wake_lock (pyaudio android : bool) (e : Service.env)
    (filepath : string) (D : Z) (w : Service.world) :
  Service.wake_lock (snd (Service._record_audio pyaudio android e filepath D w))
  = Service.wake_lock w.
Proof.
  unfold Service._record_audio. destruct pyaudio; [|done]. cbn [negb].
  unfold Service.wave_call, Service.Logger, Service.show_notification.
  destruct (Service.open_input e); mrun; [done|].
  destruct (Service.open_output e); mrun; [done|].
  cbn [Service.wave_file Service.put_wave_file Service.set_files
       Service.set_audio_stream].
  match goal with
  | |- context [Service.record_loop D ?st ?ts ?w0] =>
      pose proof (record_loop_keeps_wake_lock D st ts w0) as H;
      destruct (Service.record_loop D st ts w0) as [[[]|x|] w1]
  end; cbn in H; [|done|done].
  destruct (Service.wave_file w1); cbn;
    destruct (Service.close_input e); cbn; try done;
    destruct (Service.is_recording w1); cbn; try done;
    destruct android; cbn; done.
Qed.

(** X11. The wake lock that [start_recording] acquires is released only by a
    [stop_recording] that finds the flag set.  When the worker has ended
    by itself (duration over, read error, or an exception), the lock is
    still held, and a [stop_recording] after that returns at once and
    changes nothing. *)
Theorem wake_lock_stays_held_after_worker_ends
    (se : Service.start_env) (android : bool) (minutes : Z) (s : Service.world)
    (held : bool) :
  Service.is_recording s = false → Service.wake_lock s = Some held →
  start_goes_through se s = true →
  ∃ s1, Service.start_recording android se minutes s = (Returned tt, s1) ∧
        Service.wake_lock s1 = Some true ∧
        ∀ (e : Service.env) (filepath : string) (D : Z) (s2 : Service.world),
          Service._record_audio true android e filepath D s1 = (Returned tt, s2) →
          Service.wake_lock s2 = Some true ∧
          Service.stop_recording android s2 = (Returned tt, s2).
Proof.
  intros R L G.
  assert (S1 : ∃ s1, Service.start_recording android se minutes s = (Returned tt, s1) ∧
                     Service.wake_lock s1 = Some true).
  { destruct s as [r t a wfile l n ti th f lg]. cbn in R, L. subst.
    destruct se as [acq stamp dir thr]. unfold start_goes_through in G. cbn in G.
    destruct acq, dir, thr; try done.
    unfold Service.start_recording, Service.show_notification, Service.Logger.
    mrun. cbn. destruct android; mrun; cbn; (eexists; split; [reflexivity|]); by cbn. }
  destruct S1 as (s1 & E1 & L1). exists s1. split; [done|]. split; [done|].
  intros e filepath D s2 E2.
  pose proof (record_audio_keeps_wake_lock true android e filepath D s1) as K.
  pose proof (service_worker_guarded android e filepath D s1) as F.
  rewrite E2 in K, F. cbn in K. split; [by rewrite K|].
  unfold Service.stop_recording. mrun. by rewrite F.
Qed.

Lemma wake_lock_stays_held_after_worker_ends_witness :
  ∃ s1, Service.start_recording true calm_start 5 service_with_lock = (Returned tt, s1) ∧
        Service.wake_lock s1 = Some true ∧
        ∀ (e : Service.env) (filepath : string) (D : Z) (s2 : Service.world),
          Service._record_audio true true e filepath D s1 = (Returned tt, s2) →
          Service.wake_lock s2 = Some true ∧
          Service.stop_recording true s2 = (Returned tt, s2).
Proof.
  apply (wake_lock_stays_held_after_worker_ends calm_start true 5 service_with_lock false);
    reflexivity.
Defined.

(** X12. For the service a duration of zero (or less) is a duration: the
    worker leaves its loop at the first test without reading, and the
    file is a finished recording with no frames. *)
Theorem service_nonpositive_duration_records_nothing
    (android : bool) (e : Service.env) (filepath : string) (D : Z) (s : Service.world)
    (t : turn) (rest : list turn) :
  D <= 0 → Service.is_recording s = true →
  Service.open_input e = None → Service.open_output e = None →
  Service.turns e = t :: rest → stop_called t = false →
  (Service.start_time e <= now t)%Q →
  ∃ s', Service._record_audio true android e filepath D s = (Returned tt, s') ∧
        Service.is_recording s' = false ∧
        Service.fs s' = <[filepath := recording_of []]> (Service.fs s) ∧
        frames (recording_of []) = 0.
Proof.
  intros HD R Hi Ho Ht Hs Hn.
  destruct (record_audio_run android e filepath D s Hi Ho) as (s' & E & _ & F).
  assert (O : service_over D (Service.start_time e) (now t) = true).
  { unfold service_over. apply Qle_bool_iff.
    assert (inject_Z D <= 0)%Q by (unfold Qle; cbn; lia). lra. }
  rewrite R, Ht in E, F. cbn [course] in E, F. rewrite Hs, O in E, F.
  cbn in E, F. destruct F as (F1 & _ & F3). by exists s'.
Qed.

Lemma service_nonpositive_duration_records_nothing_witness :
  ∃ s', Service._record_audio true true service_env_late "rec.wav" 0
          (Service.set_is_recording true fresh_service) = (Returned tt, s') ∧
        Service.is_recording s' = false ∧
        Service.fs s' = <["rec.wav"%string := recording_of []]> ∅ ∧
        frames (recording_of []) = 0.
Proof.
  apply (service_nonpositive_duration_records_nothing true service_env_late "rec.wav" 0
           (Service.set_is_recording true fresh_service)
           (good_turn 101 block_a) [good_turn 102 block_b]);
    try reflexivity; try lia; by vm_compute.
Defined.

(** X13. The service takes a recording for complete whenever the flag is
    still set after the loop: when the duration is over, and also when a
    read has failed.  It then shows a notification and starts the timer
    that hides it.  After a stop it does neither. *)
Theorem service_completion_notice
    (android : bool) (e : Service.env) (filepath : string) (D : Z) (s : Service.world) :
  Service.is_recording s = true →
  Service.open_input e = None → Service.open_output e = None →
  Service.close_input e = None →
  ∃ s', Service._record_audio true android e filepath D s
        = (loop_outcome (snd (course (service_over D (Service.start_time e)) true
                                (Service.turns e))), s') ∧
        match snd (course (service_over D (Service.start_time e)) true (Service.turns e)) with
        | Expired | ReadFailed =>
            Service.timers s' = S (Service.timers s) ∧
            (android = true → is_Some (Service.notification s'))
        | Stopped =>
            Service.timers s' = Service.timers s ∧
            Service.notification s' = Service.notification s
        | Unfinished => True
        end.
Proof.
  intros R Hi Ho Hc.
  unfold Service._record_audio, Service.wave_call, Service.Logger,
    Service.show_notification.
  cbn [negb]. rewrite Hi, Ho, Hc. mrun.
  cbn [Service.wave_file Service.put_wave_file Service.set_files].
  rewrite !put_wave_file_twice by reflexivity.
  change (Wave.setframerate _ _) with (prepared filepath).
  change (Service.add_log ?m (Service.put_wave_file ?o ?w0))
    with (Service.put_wave_file o (Service.add_log m w0)).
  rewrite record_loop_course.
  change (Service.is_recording (Service.add_log _ (Service.set_audio_stream true s)))
    with (Service.is_recording s).
  rewrite R.
  destruct (course _ _ _) as [cs en]. cbn [fst snd].
  destruct en; cbn; rewrite ?R; cbn; destruct android; cbn;
    (eexists; split; [reflexivity|]); cbn; try done; split; try done; by eexists.
Qed.

Lemma service_completion_notice_witness :
  ∃ s', Service._record_audio true true service_env_read_fails "rec.wav" 60
          (Service.set_is_recording true fresh_service)
        = (loop_outcome (snd (course (service_over 60 (Service.start_time service_env_read_fails))
                                true (Service.turns service_env_read_fails))), s') ∧
        match snd (course (service_over 60 (Service.start_time service_env_read_fails)) true
                     (Service.turns service_env_read_fails)) with
        | Expired | ReadFailed =>
            Service.timers s' = S (Service.timers (Service.set_is_recording true fresh_service)) ∧
            (true = true → is_Some (Service.notification s'))
        | Stopped =>
            Service.timers s' = Service.timers (Service.set_is_recording true fresh_service) ∧
            Service.notification s' = Service.notification (Service.set_is_recording true fresh_service)
        | Unfinished => True
        end.
Proof.
  apply (service_completion_notice true service_env_read_fails "rec.wav" 60
           (Service.set_is_recording true fresh_service)); reflexivity.
Defined.

(* ===================================================================== *)
(** * Further properties of [VoiceRecorderApp] *)
(* ===================================================================== *)

(** X15. A duration that parses but is not positive is turned away with its
    own message; nothing but the status text changes. *)
Theorem schedule_rejects_nonpositive_duration
    (int : string → option Z) (strftime : Datetime.datetime → string)
    (android : bool) (e : App.env) (w : App.world) (h m d : Z) :
  int (App.hour_spinner w) = Some h → int (App.minute_spinner w) = Some m →
  int (App.duration_input w) = Some d → d <= 0 →
  App.schedule_recording int strftime android e w
  = (Returned tt, App.set_status_label "Error: Duration must be positive" w).
Proof.
  intros Hh Hm Hd Le. unfold App.schedule_recording, App.parse. mrun.
  rewrite Hh; mrun. rewrite Hm; mrun. rewrite Hd; mrun.
  by replace (d <=? 0) with true by (symmetry; by apply Z.leb_le).
Qed.

Lemma schedule_rejects_nonpositive_duration_witness :
  App.schedule_recording App.int_decimal hour_minute true half_past_noon zero_duration_app
  = (Returned tt, App.set_status_label "Error: Duration must be positive" zero_duration_app).
Proof.
  apply (schedule_rejects_nonpositive_duration App.int_decimal hour_minute true
           half_past_noon zero_duration_app 12 0 0); try reflexivity; try lia.
Defined.



(** What a [schedule_recording] with good input leaves. *)
Lemma schedule_recording_run
    (int : string → option Z) (strftime : Datetime.datetime → string)
    (android : bool) (e : App.env) (w : App.world) (h m d : Z) (s : Datetime.datetime) :
  int (App.hour_spinner w) = Some h → int (App.minute_spinner w) = Some m →
  int (App.duration_input w) = Some d → 0 < d →
  App.next_occurrence (App.now e) h m = inr s →
  ∃ w', App.schedule_recording int strftime android e w = (Returned tt, w') ∧
        App.store w' = <["recording"%string := schedule_entry h m d s]> (App.store w) ∧
        App.alarm w' =
          (if android
           then (if App.bridge e is None
                 then Some (int_of_Q (Datetime.timestamp s * 1000), d)
                 else App.alarm w)
           else App.alarm w) ∧
        App.status_label w' = ("Recording scheduled for " +:+ strftime s)%string ∧
        App.schedule_btn w' = "Reschedule Recording"%string ∧
        App.hour_spinner w' = App.hour_spinner w ∧
        App.minute_spinner w' = App.minute_spinner w ∧
        App.duration_input w' = App.duration_input w ∧
        App.log w' =
          (if android
           then App.log w ++ [if App.bridge e is None then "Alarm scheduled"%string
                              else "Error scheduling alarm"%string]
           else App.log w).
Proof.
  intros Hh Hm Hd Pos E.
  unfold App.schedule_recording, App.parse, App.schedule_android_alarm,
    App.store_put, App.Logger. mrun.
  rewrite Hh; mrun. rewrite Hm; mrun. rewrite Hd; mrun.
  replace (d <=? 0) with false by (symmetry; apply Z.leb_gt; lia).
  rewrite E. mrun.
  destruct android; mrun; [destruct (App.bridge e); mrun|];
    (eexists; split; [reflexivity|]); by cbn.
Qed.

(** X17. The alarm follows the bridge, the store and the status text do not:
    with good input the schedule is stored and shown as scheduled also
    when the bridge fails (the error goes to the log only) or when the
    platform is not Android; the alarm is set only on Android with a
    working bridge, for the stored instant in milliseconds. *)
Theorem schedule_stores_even_without_alarm
    (int : string → option Z) (strftime : Datetime.datetime → string)
    (android : bool) (e : App.env) (w : App.world) (h m d : Z) :
  Datetime.valid (App.now e) →
  int (App.hour_spinner w) = Some h → int (App.minute_spinner w) = Some m →
  int (App.duration_input w) = Some d →
  0 <= h < 24 → 0 <= m < 60 → 0 < d →
  ∃ s w',
    App.next_occurrence (App.now e) h m = inr s ∧
    App.schedule_recording int strftime android e w = (Returned tt, w') ∧
    App.store w' !! "recording"%string = Some (schedule_entry h m d s) ∧
    App.status_label w' = ("Recording scheduled for " +:+ strftime s)%string ∧
    App.alarm w' =
      (if android && (if App.bridge e is None then true else false)
       then Some (Datetime.micros s / 1000, d) else App.alarm w).
Proof.
  intros Hn Hh Hm Hd Rh Rm Pos.
  destruct (next_occurrence_spec (App.now e) h m Hn Rh Rm) as (s & E & Es & _).
  destruct (schedule_recording_run int strftime android e w h m d s Hh Hm Hd Pos E)
    as (w' & Ew & St & Al & Sl & _).
  exists s, w'. split; [done|]. split; [done|].
  split; [rewrite St; apply lookup_insert_eq|]. split; [done|].
  rewrite Al. destruct android; [|done]. destruct (App.bridge e); [done|]. cbn [andb].
  f_equal. f_equal.
  assert (M : ∃ k, Datetime.micros s = k * 1000000).
  { rewrite Es. unfold today_at, Datetime.add_days, Datetime.micros.
    destruct (_ <? _); cbn.
    - exists (((Datetime.ordinal (App.now e) * 24 + h) * 60 + m) * 60). ring.
    - exists ((((Datetime.ordinal (App.now e) + 1) * 24 + h) * 60 + m) * 60). ring. }
  destruct M as [k M]. unfold Datetime.timestamp, int_of_Q. rewrite M. cbn.
  change (Z.pos (1000000 * 1)) with 1000000.
  replace (k * 1000000 * 1000) with (k * 1000 * 1000000) by ring.
  replace (k * 1000000) with (k * 1000 * 1000) by ring.
  rewrite Z.quot_mul, Z.div_mul; lia.
Qed.

Lemma schedule_stores_even_without_alarm_witness :
  ∃ s w',
    App.next_occurrence (App.now half_past_noon_no_bridge) 12 0 = inr s ∧
    App.schedule_recording App.int_decimal hour_minute true half_past_noon_no_bridge fresh_app
      = (Returned tt, w') ∧
    App.store w' !! "recording"%string = Some (schedule_entry 12 0 5 s) ∧
    App.status_label w' = ("Recording scheduled for " +:+ hour_minute s)%string ∧
    App.alarm w' = App.alarm fresh_app.
Proof.
  apply (schedule_stores_even_without_alarm App.int_decimal hour_minute true
           half_past_noon_no_bridge fresh_app 12 0 5);
    try reflexivity; try lia.
  unfold Datetime.valid; cbn; lia.
Defined.

(** X18. Scheduling and loading the settings again is a round trip for the
    form: the hour and the minute come back with two digits and the
    duration as it was stored. *)
Theorem schedule_then_load_settings
    (int : string → option Z) (strftime : Datetime.datetime → string)
    (repr : Q → string)
    (android : bool) (e : App.env) (w : App.world) (h m d : Z) :
  Datetime.valid (App.now e) →
  int (App.hour_spinner w) = Some h → int (App.minute_spinner w) = Some m →
  int (App.duration_input w) = Some d →
  0 <= h < 24 → 0 <= m < 60 → 0 < d →
  ∃ w1 w2,
    App.schedule_recording int strftime android e w = (Returned tt, w1) ∧
    App.load_settings repr w1 = (Returned tt, w2) ∧
    App.hour_spinner w2 = App.format_02d h ∧
    App.minute_spinner w2 = App.format_02d m ∧
    App.duration_input w2 = App.str d ∧
    App.store w2 = App.store w1.
Proof.
  intros Hn Hh Hm Hd Rh Rm Pos.
  destruct (next_occurrence_spec (App.now e) h m Hn Rh Rm) as (s & E & _).
  destruct (schedule_recording_run int strftime android e w h m d s Hh Hm Hd Pos E)
    as (w1 & Ew & St & _).
  exists w1. eexists. split; [done|].
  unfold App.load_settings. mrun. rewrite St, lookup_insert_eq.
  unfold schedule_entry.
  rewrite lookup_insert_eq. mrun. cbn [App.format_value_02d]. mrun.
  rewrite lookup_insert_ne, lookup_insert_eq by done. cbn [App.format_value_02d]. mrun.
  rewrite !lookup_insert_ne, lookup_insert_eq by done. mrun.
  split; [reflexivity|]. cbn. by rewrite St.
Qed.

Lemma schedule_then_load_settings_witness :
  ∃ w1 w2,
    App.schedule_recording App.int_decimal hour_minute true half_past_noon
      (App.set_hour_spinner "7" fresh_app) = (Returned tt, w1) ∧
    App.load_settings (λ _, ""%string) w1 = (Returned tt, w2) ∧
    App.hour_spinner w2 = App.format_02d 7 ∧
    App.minute_spinner w2 = App.format_02d 0 ∧
    App.duration_input w2 = App.str 5 ∧
    App.store w2 = App.store w1.
Proof.
  apply (schedule_then_load_settings App.int_decimal hour_minute (λ _, ""%string) true
           half_past_noon (App.set_hour_spinner "7" fresh_app) 7 0 5);
    try reflexivity; try lia.
  unfold Datetime.valid; cbn; lia.
Defined.

(** X19. [cancel_recording] always stores "not scheduled" and shows
    "Recording cancelled"; the pending alarm is removed only on Android
    with a working bridge, and stays as it is when the bridge fails. *)
Theorem cancel_leaves_alarm_when_bridge_fails
    (android : bool) (e : App.env) (w : App.world) :
  ∃ w', App.cancel_recording android e w = (Returned tt, w') ∧
        App.store w' !! "recording"%string
          = Some (<["is_scheduled"%string := App.VBool false]> ∅) ∧
        App.status_label w' = "Recording cancelled"%string ∧
        App.schedule_btn w' = "Schedule Recording"%string ∧
        App.alarm w' =
          (if android && (if App.bridge e is None then true else false)
           then None else App.alarm w).
Proof.
  unfold App.cancel_recording, App.cancel_android_alarm, App.store_put, App.Logger.
  destruct android; mrun; [destruct (App.bridge e); mrun|];
    (eexists; split; [reflexivity|]); cbn; by rewrite lookup_insert_eq.
Qed.

(* ===================================================================== *)
(** * The periodic refresh *)
(* ===================================================================== *)







(** ** The list of recordings *)










(** ** The countdown *)




(** X22. When the recordings directory is not there, the refresh makes it
    and shows that there are no recordings; the text for a missing
    directory is not reached.  When the directory cannot be made, the
    error leaves [update_status] with the status text already set. *)
Theorem refresh_makes_missing_directory
    (strftime : Datetime.datetime → string) (e : AppStatus.env) (w : AppStatus.world) :
  AppStatus.recordings_dir w = None →
  match AppStatus.makedirs e with
  | None =>
      AppStatus.update_recordings_list strftime e w
      = (Returned tt,
         AppStatus.set_recordings_list "No recordings yet"
           (AppStatus.set_recordings_dir (Some []) w))
  | Some x =>
      AppStatus.update_recordings_list strftime e w = (Raised x, w) ∧
      fst (AppStatus.update_status strftime e w) = Raised x
  end.
Proof.
  intros Hd.
  destruct w as [a rl rd]. cbn in Hd. subst rd.
  unfold AppStatus.update_status, AppStatus.update_recordings_list,
    AppStatus.get_recordings_directory, AppStatus.set_status.
  destruct (AppStatus.makedirs e) as [x|] eqn:Hm; mrun; cbn.
  - split; [done|].
    destruct (App.store a !! "recording"%string) as [settings|]; mrun;
      [destruct (AppStatus.truth _); cbv zeta; mrun;
       [destruct (AppStatus.lt _ _); mrun|]|];
      cbn; done.
  - done.
Qed.

Lemma refresh_makes_missing_directory_witness :
  AppStatus.update_recordings_list hour_minute refresh_no_makedirs app_without_directory
    = (Raised OSError, app_without_directory) ∧
  fst (AppStatus.update_status hour_minute refresh_no_makedirs app_without_directory)
    = Raised OSError.
Proof.
  apply (refresh_makes_missing_directory hour_minute refresh_no_makedirs
           app_without_directory).
  reflexivity.
Defined.

(* ===================================================================== *)
(** * The simple application *)
(* ===================================================================== *)

(** X23. [SimpleVoiceRecorderApp.schedule_recording] catches nothing: when a
    field does not parse as an integer, [ValueError] leaves the method
    with the status text already changed and the store as it was. *)
Theorem simple_schedule_raises_on_malformed_input
    (int : string → option Z) (w : SimpleApp.world) :
  int (SimpleApp.hour_spinner w) = None ∨ int (SimpleApp.minute_spinner w) = None ∨
  int (SimpleApp.duration_input w) = None →
  ∃ w', SimpleApp.schedule_recording int w = (Raised ValueError, w') ∧
        SimpleApp.store w' = SimpleApp.store w ∧
        SimpleApp.status_label w' =
          ("Would schedule recording at " +:+ SimpleApp.hour_spinner w +:+ ":"
           +:+ SimpleApp.minute_spinner w +:+ " for " +:+ SimpleApp.duration_input w
           +:+ " minutes")%string.
Proof.
  intros H. unfold SimpleApp.schedule_recording, SimpleApp.parse. mrun.
  cbn [SimpleApp.hour_spinner SimpleApp.minute_spinner SimpleApp.duration_input
       SimpleApp.set_status_label].
  destruct (int (SimpleApp.hour_spinner w)) as [h|] eqn:Hh; mrun; [|by eexists].
  destruct (int (SimpleApp.minute_spinner w)) as [m|] eqn:Hm; mrun; [|by eexists].
  destruct (int (SimpleApp.duration_input w)) as [d|] eqn:Hd; mrun; [|by eexists].
  by destruct H as [?|[?|?]].
Qed.

Lemma simple_schedule_raises_on_malformed_input_witness :
  ∃ w', SimpleApp.schedule_recording App.int_decimal blank_simple_app
          = (Raised ValueError, w') ∧
        SimpleApp.store w' = SimpleApp.store blank_simple_app ∧
        SimpleApp.status_label w' =
          ("Would schedule recording at " +:+ SimpleApp.hour_spinner blank_simple_app +:+ ":"
           +:+ SimpleApp.minute_spinner blank_simple_app +:+ " for "
           +:+ SimpleApp.duration_input blank_simple_app +:+ " minutes")%string.
Proof.
  apply (simple_schedule_raises_on_malformed_input App.int_decimal blank_simple_app).
  right; right; reflexivity.
Defined.



(* ===================================================================== *)
(** * The names of recordings *)
(* ===================================================================== *)

Lemma list_ascii_of_string_app (a b : string) :
  list_ascii_of_string (a +:+ b) = list_ascii_of_string a ++ list_ascii_of_string b.
Proof. induction a as [|c a IH]; [done|]. simpl. f_equal. apply IH. Qed.

Lemma wav_suffix (p : string) (l : list ascii) :
  list_ascii_of_string p = l ++ list_ascii_of_string ".wav" →
  extension p = "WAV"%string ∧ AppStatus.endswith p ".wav" = true.
Proof.
  intros E. unfold extension, AppStatus.endswith. rewrite E, rev_app_distr. by cbn.
Qed.

(** X7. Every name that [create_recording_filename] makes, joined to any
    directory, has the extension [.wav]: [soundfile] picks the WAV
    container for it and the recordings list of the application shows
    it. *)
Theorem recording_names_end_in_wav (dir timestamp : string) :
  extension (AudioUtilsPaths.join dir (AudioUtilsPaths.create_recording_filename timestamp))
    = "WAV"%string ∧
  AppStatus.endswith
    (AudioUtilsPaths.join dir (AudioUtilsPaths.create_recording_filename timestamp)) ".wav"
    = true ∧
  AppStatus.endswith (AudioUtilsPaths.create_recording_filename timestamp) ".wav" = true.
Proof.
  assert (N : list_ascii_of_string (AudioUtilsPaths.create_recording_filename timestamp)
              = list_ascii_of_string ("recording_" +:+ timestamp) ++ list_ascii_of_string ".wav").
  { unfold AudioUtilsPaths.create_recording_filename.
    change ("recording_" +:+ timestamp +:+ ".wav")%string
      with ("recording_" +:+ (timestamp +:+ ".wav"))%string.
    rewrite !list_ascii_of_string_app. by rewrite app_assoc. }
  assert (J : ∃ l, list_ascii_of_string
                (AudioUtilsPaths.join dir (AudioUtilsPaths.create_recording_filename timestamp))
              = l ++ list_ascii_of_string ".wav").
  { unfold AudioUtilsPaths.join.
    destruct (AppStatus.startswith _ _); [by eexists|].
    destruct (String.eqb dir ""); [by eexists|].
    destruct (AppStatus.endswith dir "/");
      rewrite !list_ascii_of_string_app, N, !app_assoc; by eexists. }
  destruct J as [l J].
  destruct (wav_suffix _ _ J) as [X Y]. destruct (wav_suffix _ _ N) as [_ Z].
  done.
Qed.

(* --------------------------------------------------------------------- *)
(** ** The build script *)

Lemma quiet_ret {A} (a : A) : quiet (mret a).
Proof. by intros w. Qed.

Lemma quiet_raise {A} (x : Py.exn) : quiet (Py.raise x : Py.M _ A).
Proof. by intros w. Qed.

Lemma quiet_gets {A} (f : BuildApk.world → A) : quiet (Py.gets f).
Proof. by intros w. Qed.

Lemma quiet_set_fs (g : BuildApk.world → gmap string BuildApk.node) :
  quiet (Py.modify (λ w, BuildApk.set_fs (g w) w)).
Proof. by intros w. Qed.

Lemma quiet_may_raise (r : option Py.exn) : quiet (Py.may_raise r).
Proof. by destruct r; intros w. Qed.

Lemma quiet_bind {A B} (m : Py.M BuildApk.world A) (f : A → Py.M BuildApk.world B) :
  quiet m → (∀ a, quiet (f a)) → quiet (m ≫= f).
Proof.
  intros Hm Hf w. destruct (Hm w) as [Hc Hr].
  unfold mbind, Py.M_bind. destruct (m w) as [[a|x|] w'] eqn:E; cbn in *.
  - destruct (Hf a w') as [Hc' Hr']. split; [congruence | done].
  - done.
  - done.
Qed.

Lemma quiet_try_except {A} (m : Py.M BuildApk.world A) handles handler :
  quiet m → (∀ x, quiet (handler x)) → quiet (Py.try_except m handles handler).
Proof.
  intros Hm Hh w. destruct (Hm w) as [Hc Hr].
  unfold Py.try_except. destruct (m w) as [[a|x|] w'] eqn:E; cbn in *.
  - done.
  - destruct (handles x); [|done].
    destruct (Hh x w') as [Hc' Hr']. split; [congruence | done].
  - done.
Qed.

Create HintDb quiet.
#[local] Hint Resolve quiet_ret quiet_raise quiet_gets quiet_set_fs quiet_may_raise
  quiet_try_except : quiet.

Ltac quiet :=
  repeat first
    [ progress auto with quiet
    | apply quiet_bind; [|intros ?]
    | match goal with
      | |- quiet (match ?x with _ => _ end) => destruct x
      | |- quiet (if ?x then _ else _) => destruct x
      end ].

Lemma quiet_mkdir parent p : quiet (BuildApk.mkdir parent p).
Proof.
  unfold BuildApk.mkdir. quiet; apply (quiet_set_fs (λ _, _)).
Qed.

Lemma quiet_write_text e p : quiet (BuildApk.write_text e p).
Proof.
  unfold BuildApk.write_text. quiet; apply (quiet_set_fs (λ _, _)).
Qed.

Lemma quiet_copy2 e src name dst : quiet (BuildApk.copy2 e src name dst).
Proof.
  unfold BuildApk.copy2. quiet; apply (quiet_set_fs (λ _, _)).
Qed.

Lemma quiet_exists p : quiet (BuildApk.exists_ p).
Proof. unfold BuildApk.exists_. quiet. Qed.

Lemma quiet_rmtree p : quiet (BuildApk.rmtree p).
Proof. unfold BuildApk.rmtree. quiet. Qed.

Lemma quiet_clean_dir d : quiet (BuildApk.clean_dir d).
Proof. unfold BuildApk.clean_dir. pose proof (quiet_rmtree d). quiet. Qed.

#[local] Hint Resolve quiet_mkdir quiet_write_text quiet_copy2 quiet_exists
  quiet_clean_dir : quiet.

Lemma quiet_setup_android_environment e :
  quiet (BuildApk.setup_android_environment e).
Proof. unfold BuildApk.setup_android_environment. quiet. Qed.

Lemma quiet_create_required_files e : quiet (BuildApk.create_required_files e).
Proof.
  unfold BuildApk.create_required_files, BuildApk.create_init. quiet.
Qed.

Lemma quiet_clean_build : quiet BuildApk.clean_build.
Proof. unfold BuildApk.clean_build. quiet. Qed.

Lemma quiet_copy_each e package_dir files :
  quiet (BuildApk.copy_each e package_dir files).
Proof.
  induction files as [|[[[src name] sub] dst] rest IH]; cbn [BuildApk.copy_each].
  - quiet.
  - quiet.
Qed.

Lemma quiet_create_windows_alternative e build_type :
  quiet (BuildApk.create_windows_alternative e build_type).
Proof.
  unfold BuildApk.create_windows_alternative.
  pose proof (quiet_copy_each e). quiet.
Qed.

Lemma install_each_run e deps w :
  BuildApk.install_each e deps w =
  (Py.Returned tt,
   {| BuildApk.fs := BuildApk.fs w;
      BuildApk.commands := BuildApk.commands w ++ map (BuildApk.pip_install e) deps |}).
Proof.
  revert w. induction deps as [|dep rest IH]; intros w.
  - cbn. rewrite app_nil_r. by destruct w.
  - cbn [BuildApk.install_each map]. unfold BuildApk.run_command. mrun.
    rewrite IH. cbn. by rewrite <- app_assoc.
Qed.

Lemma bind_returned {S A B} (m : Py.M S A) (f : A → Py.M S B) w a w' :
  m w = (Py.Returned a, w') → (m ≫= f) w = f a w'.
Proof. intros E. unfold mbind, Py.M_bind. by rewrite E. Qed.

Lemma chosen_build_spec line :
  BuildApk.build_command (BuildApk.build_type_of line) = chosen_build line.
Proof.
  unfold BuildApk.build_command, BuildApk.build_type_of, chosen_build.
  by destruct (String.eqb (BuildApk.strip line) "2").
Qed.

Lemma build_apk_run e t w :
  ∃ o w' built,
    BuildApk.build_apk e t w = (o, w') ∧ o ≠ Py.Running ∧
    BuildApk.commands w' = BuildApk.commands w ++ built ∧
    (built = [] ∧ o ≠ Py.Returned true ∨
     BuildApk.system e ≠ "Windows"%string ∧ built = [BuildApk.build_command t] ∧
     (o = Py.Returned true → BuildApk.succeeds e (BuildApk.build_command t) = true)).
Proof.
  unfold BuildApk.build_apk.
  destruct (String.eqb_spec (BuildApk.system e) "Windows") as [Hs|Hs].
  - destruct (quiet_create_windows_alternative e t w) as [Hc Hr].
    unfold mbind, Py.M_bind.
    destruct (BuildApk.create_windows_alternative e t w) as [[[]|x|] w'] eqn:E;
      cbn in Hc, Hr; [| |done].
    + exists (Py.Returned false), w', []. rewrite app_nil_r.
      repeat split; try done. by left.
    + exists (Py.Raised x), w', []. rewrite app_nil_r.
      repeat split; try done. by left.
  - set (command := BuildApk.build_command t).
    set (w1 := BuildApk.set_fs (BuildApk.build e (BuildApk.fs w))
                 (BuildApk.add_command command w)).
    unfold BuildApk.run_command.
    rewrite (bind_returned _ _ w (BuildApk.succeeds e command)
               (BuildApk.add_command command w)) by reflexivity.
    rewrite (bind_returned _ _ _ tt w1) by reflexivity.
    match goal with |- context [(?m ≫= _) w1] => set (after := m) end.
    assert (Hq : quiet after).
    { subst after. destruct (BuildApk.succeeds e command); quiet. }
    destruct (Hq w1) as [Hc Hr].
    unfold mbind, Py.M_bind.
    destruct (after w1) as [[[]|x|] w'] eqn:E; cbn in Hc, Hr; [| |done].
    + exists (Py.Returned (BuildApk.succeeds e command)), w', [command].
      repeat split; try done. right. repeat split; try done. by intros [= ->].
    + exists (Py.Raised x), w', [command].
      repeat split; try done. right. repeat split; done.
Qed.

Lemma keeps_mkdir k parent p : k ≠ p → keeps k (BuildApk.mkdir parent p).
Proof.
  intros Hk w. unfold BuildApk.mkdir. mrun.
  repeat case_match; simplify_eq; cbn; try done;
    rewrite ?lookup_insert_ne by congruence; done.
Qed.

Lemma keeps_create_init k e p : k ≠ p → keeps k (BuildApk.create_init e p).
Proof.
  intros Hk w. unfold BuildApk.create_init, BuildApk.write_text, BuildApk.exists_.
  mrun. repeat case_match; simplify_eq; cbn; try done;
    rewrite ?lookup_insert_ne by congruence; done.
Qed.

Lemma keeps_setup_android_environment k e :
  k ≠ "app/dist"%string → keeps k (BuildApk.setup_android_environment e).
Proof.
  intros Hk w. pose proof (keeps_mkdir k (Some "app"%string) "app/dist" Hk w) as H.
  unfold BuildApk.setup_android_environment. unfold mbind at 1. unfold Py.M_bind.
  destruct (String.eqb (BuildApk.system e) "Windows").
  - by destruct (BuildApk.mkdir _ _ w) as [[[]|x|] w'].
  - done.
Qed.

Lemma missing_required_step {A} (m : Py.M BuildApk.world A)
    (f : A → Py.M BuildApk.world bool) :
  keeps "app/main.py" m → keeps "buildozer.spec" m →
  (∀ a w, missing_required w → (f a w).1 ≠ Py.Returned true) →
  ∀ w, missing_required w → ((m ≫= f) w).1 ≠ Py.Returned true.
Proof.
  intros K1 K2 Hf w Hw. specialize (K1 w). specialize (K2 w).
  unfold mbind, Py.M_bind. destruct (m w) as [[a|x|] w'] eqn:E; cbn in *; try done.
  apply Hf. unfold missing_required in *. by rewrite K1, K2.
Qed.

Lemma create_required_files_missing e w :
  missing_required w → (BuildApk.create_required_files e w).1 ≠ Py.Returned true.
Proof.
  revert w. unfold BuildApk.create_required_files.
  do 2 (apply missing_required_step; [by apply keeps_mkdir..|intros _]).
  do 2 (apply missing_required_step; [by apply keeps_create_init..|intros _]).
  intros w [H|H]; unfold BuildApk.exists_; mrun.
  - by rewrite H.
  - destruct (BuildApk.fs w !! "app/main.py"%string); cbn [negb fst]; [|done].
    mrun. by rewrite H.
Qed.

Lemma check_prerequisites_run e w :
  BuildApk.check_prerequisites e w =
  (Py.Returned true,
   {| BuildApk.fs := BuildApk.fs w;
      BuildApk.commands :=
        BuildApk.commands w ++ ["java -version"; "git --version"]%string |}).
Proof.
  unfold BuildApk.check_prerequisites, BuildApk.run_command. mrun.
  unfold BuildApk.add_command. cbn. by rewrite <- app_assoc.
Qed.

Lemma install_dependencies_run e w :
  BuildApk.install_dependencies e w =
  (Py.Returned true,
   {| BuildApk.fs := BuildApk.fs w;
      BuildApk.commands :=
        BuildApk.commands w ++ map (BuildApk.pip_install e) BuildApk.dependencies |}).
Proof.
  unfold BuildApk.install_dependencies. mrun. by rewrite install_each_run.
Qed.

Lemma bind_run {S A B} (m : Py.M S A) (f : A → Py.M S B) w :
  (m ≫= f) w =
  match m w with
  | (Py.Returned a, s') => f a s'
  | (Py.Raised x, s') => (Py.Raised x, s')
  | (Py.Running, s') => (Py.Running, s')
  end.
Proof. reflexivity. Qed.

Ltac build_stops :=
  eexists false, _, []; rewrite app_nil_r;
  split; [reflexivity|]; split; [congruence|]; by left.

Lemma main_run e w :
  ∃ b w' built,
    BuildApk.main e w = (Py.Returned b, w') ∧
    BuildApk.commands w' = BuildApk.commands w ++ prerequisites e ++ built ∧
    (built = [] ∧ b = false
     ∨ ∃ line, BuildApk.choice e = inr line ∧
         BuildApk.system e ≠ "Windows"%string ∧ ¬ missing_required w ∧
         built = [chosen_build line] ∧
         (b = true → BuildApk.succeeds e (chosen_build line) = true)).
Proof.
  unfold BuildApk.main, Py.try_except.
  rewrite (bind_returned _ _ w true _ (check_prerequisites_run e w)).
  cbn [negb].
  rewrite (bind_returned _ _ _ true _ (install_dependencies_run e _)).
  cbn [negb BuildApk.fs BuildApk.commands]. rewrite <- app_assoc.
  fold (prerequisites e).
  set (w2 := {| BuildApk.fs := BuildApk.fs w;
                BuildApk.commands := BuildApk.commands w ++ prerequisites e |}).
  rewrite bind_run.
  destruct (quiet_setup_android_environment e w2) as [Hc3 Hr3].
  change (BuildApk.commands w2)
    with (BuildApk.commands w ++ prerequisites e) in Hc3.
  pose proof (keeps_setup_android_environment "app/main.py" e
                ltac:(done) w2) as K1.
  pose proof (keeps_setup_android_environment "buildozer.spec" e
                ltac:(done) w2) as K2.
  destruct (BuildApk.setup_android_environment e w2) as [[[]|x|] w3];
    cbn [fst snd] in Hc3, Hr3, K1, K2; [| build_stops.. | done].
  cbn [negb]. rewrite bind_run.
  destruct (quiet_create_required_files e w3) as [Hc4 Hr4].
  pose proof (create_required_files_missing e w3) as Hm.
  destruct (BuildApk.create_required_files e w3) as [[[]|x|] w4];
    cbn [fst snd] in Hc4, Hr4, Hm; [| build_stops.. | done].
  assert (Hw : ¬ missing_required w).
  { intros H. apply Hm; [|done]. unfold missing_required in *. by rewrite K1, K2. }
  cbn [negb]. rewrite bind_run.
  destruct (quiet_clean_build w4) as [Hc5 Hr5].
  destruct (BuildApk.clean_build w4) as [[[]|x|] w5];
    cbn [fst snd] in Hc5, Hr5; [| build_stops.. | done].
  cbn [negb].
  destruct (BuildApk.choice e) as [x|line] eqn:Hl; [build_stops|].
  rewrite (bind_returned _ _ w5 line w5) by reflexivity. rewrite bind_run.
  destruct (build_apk_run e (BuildApk.build_type_of line) w5)
    as (o & w6 & built & -> & Hr6 & Hc6 & H6).
  rewrite chosen_build_spec in H6.
  destruct H6 as [[-> Ho]|(Hs & -> & Ho)]; [rewrite app_nil_r in Hc6|].
  - destruct o as [[]|x|]; try done; build_stops.
  - destruct o as [[]|x|]; try done.
    + eexists true, _, [chosen_build line]. split; [reflexivity|]. split; [rewrite app_assoc; congruence|].
      right. exists line. repeat split; try done. intros _. by apply Ho.
    + eexists false, _, [chosen_build line]. split; [reflexivity|]. split; [rewrite app_assoc; congruence|].
      right. exists line. by repeat split.
    + eexists false, _, [chosen_build line]. split; [reflexivity|]. split; [rewrite app_assoc; congruence|].
      right. exists line. by repeat split.
Qed.


(** X26. On Windows the build script runs no build: after the prerequisites
    no command follows, and the script reports failure, also when the
    package for another platform has been made. *)
Theorem windows_build_runs_no_buildozer (e : BuildApk.env) (w : BuildApk.world) :
  BuildApk.system e = "Windows"%string →
  (BuildApk.main e w).1 = Py.Returned false ∧
  BuildApk.commands (BuildApk.main e w).2 = BuildApk.commands w ++ prerequisites e.
Proof.
  intros Hs. destruct (main_run e w) as (b & w' & built & -> & Hc & H).
  destruct H as [[-> ->]|(line & _ & Hn & _)]; [|done].
  by rewrite app_nil_r in Hc.
Qed.

Lemma windows_build_runs_no_buildozer_witness :
  (BuildApk.main windows_build project).1 = Py.Returned false ∧
  BuildApk.commands (BuildApk.main windows_build project).2
    = BuildApk.commands project ++ prerequisites windows_build.
Proof.
  apply (windows_build_runs_no_buildozer windows_build project). reflexivity.
Defined.

(** X27. Without [app/main.py] or without [buildozer.spec] the build script
    stops after the prerequisites: it runs no build and reports
    failure. *)
Theorem missing_required_file_stops_build (e : BuildApk.env) (w : BuildApk.world) :
  missing_required w →
  (BuildApk.main e w).1 = Py.Returned false ∧
  BuildApk.commands (BuildApk.main e w).2 = BuildApk.commands w ++ prerequisites e.
Proof.
  intros Hm. destruct (main_run e w) as (b & w' & built & -> & Hc & H).
  destruct H as [[-> ->]|(line & _ & _ & Hn & _)]; [|done].
  by rewrite app_nil_r in Hc.
Qed.

Lemma missing_required_file_stops_build_witness :
  (BuildApk.main linux_build empty_project).1 = Py.Returned false ∧
  BuildApk.commands (BuildApk.main linux_build empty_project).2
    = BuildApk.commands empty_project ++ prerequisites linux_build.
Proof.
  apply (missing_required_file_stops_build linux_build empty_project).
  left. reflexivity.
Defined.



(** X6. Whatever the backend and the environment, the worker of
    [AudioRecorder] lets no exception out, and when it returns the
    recording flag is cleared. *)
Theorem recorder_worker_never_raises (lib : option AudioUtils.lib)
    (tone : Z → Z → Z → Z) (e : AudioUtils.env) (filepath : string)
    (d : option Q) (w : AudioUtils.world) :
  (∀ x, (AudioUtils._record_worker lib tone e filepath d w).1 ≠ Py.Raised x) ∧
  ((AudioUtils._record_worker lib tone e filepath d w).1 = Py.Returned tt →
   AudioUtils.is_recording (AudioUtils._record_worker lib tone e filepath d w).2
     = false).
Proof.
  pose proof (recorder_worker_guarded lib tone e filepath d w) as G.
  destruct (AudioUtils._record_worker lib tone e filepath d w) as [[[]|x|] w'];
    cbn [fst snd]; split; try done.
Qed.

(** X14. The same holds for the worker of [RecordingService] when PyAudio has
    been imported. *)
Theorem service_worker_never_raises (android : bool) (e : Service.env)
    (filepath : string) (D : Z) (w : Service.world) :
  (∀ x, (Service._record_audio true android e filepath D w).1 ≠ Py.Raised x) ∧
  ((Service._record_audio true android e filepath D w).1 = Py.Returned tt →
   Service.is_recording (Service._record_audio true android e filepath D w).2
     = false).
Proof.
  pose proof (service_worker_guarded android e filepath D w) as G.
  destruct (Service._record_audio true android e filepath D w) as [[[]|x|] w'];
    cbn [fst snd]; split; try done.
Qed.
